(** * Auto-Claude backend: provider resolution, validation and command dispatch

    A shallow embedding of
      - [apps/backend/core/cli_manager.py]  (class [CLIManager]) and
      - [apps/backend/cli/main.py]          ([parse_args], [_run_cli]),
    followed by the properties of the specification stated on it.

    Conventions of the embedding.
      - Python [str] values are Rocq [string]s; a character is the code
        point it carries (0..255), and [strip], [lower] and [repr] are
        Python's on that range.
      - [os.environ] is a finite map from names to values.
      - A function that logs and may raise is a computation in [run]:
        the records it logged, in order, and how it ended.
      - Calls that leave the two files (handlers, [find_spec], the
        version probe, the file system) are inputs of the functions
        that make them, or events of the trace they produce. *)

From Stdlib Require Import ZArith Ascii String List Bool Lia.
From stdpp Require Import base strings pretty gmap list.

Local Open Scope string_scope.
Local Open Scope list_scope.
Set Warnings "-register-all".

(** ** Python text primitives *)

Module PyText.

Definition code (c : ascii) : N := N_of_ascii c.

(** [str.isspace] on one character. *)
Definition is_space (c : ascii) : bool :=
  let n := code c in
  ((9 <=? n) && (n <=? 13) || (28 <=? n) && (n <=? 32)
   || (n =? 133) || (n =? 160))%N.

(** [str.lower] on one character: A-Z, and the upper-case letters
    of the Latin-1 block (all of 0xC0..0xDE but the sign 0xD7). *)
Definition lower_char (c : ascii) : ascii :=
  let n := code c in
  if ((65 <=? n) && (n <=? 90)
      || (192 <=? n) && (n <=? 222) && negb (n =? 215))%N
  then ascii_of_N (n + 32) else c.

Fixpoint lower (s : string) : string :=
  match s with
  | EmptyString => EmptyString
  | String c r => String (lower_char c) (lower r)
  end.

Fixpoint lstrip (s : string) : string :=
  match s with
  | EmptyString => EmptyString
  | String c r => if is_space c then lstrip r else s
  end.

Fixpoint rstrip (s : string) : string :=
  match s with
  | EmptyString => EmptyString
  | String c r =>
      match rstrip r with
      | EmptyString => if is_space c then EmptyString else String c EmptyString
      | r' => String c r'
      end
  end.

(** [str.strip()] with no argument. *)
Definition strip (s : string) : string := rstrip (lstrip s).

(** A string of white space only (the empty string is one). *)
Fixpoint all_space (s : string) : bool :=
  match s with
  | EmptyString => true
  | String c r => is_space c && all_space r
  end.

(** A string that holds no white space. *)
Fixpoint no_space (s : string) : bool :=
  match s with
  | EmptyString => true
  | String c r => negb (is_space c) && no_space r
  end.

(** Python truthiness of a [str]. *)
Definition nonempty (s : string) : bool :=
  match s with EmptyString => false | _ => true end.

(** [a or b] on two strings. *)
Definition str_or (a b : string) : string := if nonempty a then a else b.

Definition is_ascii_lower (c : ascii) : bool :=
  ((97 <=? code c) && (code c <=? 122))%N.
Definition is_ascii_upper (c : ascii) : bool :=
  ((65 <=? code c) && (code c <=? 90))%N.

(** [str.title] on ASCII text: a letter that follows a letter is
    lower-cased, a letter that does not is upper-cased. *)
Fixpoint title_go (prev_cased : bool) (s : string) : string :=
  match s with
  | EmptyString => EmptyString
  | String c r =>
      if is_ascii_lower c then
        String (if prev_cased then c else ascii_of_N (code c - 32))
               (title_go true r)
      else if is_ascii_upper c then
        String (if prev_cased then ascii_of_N (code c + 32) else c)
               (title_go true r)
      else String c (title_go false r)
  end.
Definition title : string -> string := title_go false.

(** [sep.join(parts)]. *)
Fixpoint join (sep : string) (parts : list string) : string :=
  match parts with
  | [] => ""
  | [p] => p
  | p :: rest => p +:+ sep +:+ join sep rest
  end.

(** [s * n]. *)
Fixpoint repeat (n : nat) (s : string) : string :=
  match n with
  | O => EmptyString
  | S m => s +:+ repeat m s
  end.

(** [needle in hay] for strings. *)
Fixpoint contains (needle hay : string) : bool :=
  String.prefix needle hay
  || match hay with
     | EmptyString => false
     | String _ r => contains needle r
     end.

Fixpoint mem_char (c : ascii) (s : string) : bool :=
  match s with
  | EmptyString => false
  | String d r => Ascii.eqb c d || mem_char c r
  end.

Definition hex_digit (n : N) : ascii :=
  if (n <? 10)%N then ascii_of_N (48 + n) else ascii_of_N (87 + n).

(** [str.isprintable] on one character. *)
Definition is_printable (c : ascii) : bool :=
  let n := code c in
  ((32 <=? n) && (n <? 127) || (161 <=? n) && negb (n =? 173))%N.

Definition repr_char (quote c : ascii) : string :=
  let n := code c in
  if Ascii.eqb c quote || Ascii.eqb c "\"%char
  then String "\"%char (String c EmptyString)
  else if (n =? 9)%N then "\t"
  else if (n =? 10)%N then "\n"
  else if (n =? 13)%N then "\r"
  else if is_printable c then String c EmptyString
  else String "\"%char (String "x"%char
         (String (hex_digit (n / 16)) (String (hex_digit (n mod 16)) EmptyString))).

Fixpoint repr_body (quote : ascii) (s : string) : string :=
  match s with
  | EmptyString => EmptyString
  | String c r => repr_char quote c +:+ repr_body quote r
  end.

Definition dquote : ascii := ascii_of_N 34.

(** [repr] of a [str]: single quotes, unless the text holds a single
    quote and no double quote. *)
Definition repr_str (s : string) : string :=
  let quote : ascii :=
    if mem_char "'"%char s && negb (mem_char dquote s)
    then dquote else "'"%char in
  String quote (repr_body quote s +:+ String quote EmptyString).

End PyText.


(** ** Exceptions, logging and the [run] computations *)

(** The exception classes the two files name or can meet, all below
    [Exception]. *)
Inductive exn_class : Set :=
| Exception
| OSError              (* also spelled IOError *)
| FileNotFoundError
| PermissionError
| ValueError
| JSONDecodeError
| UnicodeDecodeError
| AttributeError
| TypeError
| TimeoutExpired.

(** A raised exception: its class and what [str(e)] gives. *)
Record exn : Set := mk_exn { exn_cls : exn_class; exn_str : string }.

(** [issubclass c d]. *)
Definition issubclass (c d : exn_class) : bool :=
  match d, c with
  | Exception, _ => true
  | OSError, (OSError | FileNotFoundError | PermissionError) => true
  | FileNotFoundError, FileNotFoundError => true
  | PermissionError, PermissionError => true
  | ValueError, (ValueError | JSONDecodeError | UnicodeDecodeError) => true
  | JSONDecodeError, JSONDecodeError => true
  | UnicodeDecodeError, UnicodeDecodeError => true
  | AttributeError, AttributeError => true
  | TypeError, TypeError => true
  | TimeoutExpired, TimeoutExpired => true
  | _, _ => false
  end.

(** Whether an [except (c1, ..., cn)] clause takes the exception. *)
Definition caught_by (classes : list exn_class) (e : exn) : bool :=
  existsb (issubclass (exn_cls e)) classes.

Inductive outcome (A : Type) : Type :=
| Returns (a : A)
| Raises (e : exn).
Arguments Returns {A} a.
Arguments Raises {A} e.

Inductive level : Set := DEBUG | INFO | WARNING | ERROR.

#[global] Instance level_eq_dec : EqDecision level.
Proof. solve_decision. Defined.

(** One call of a [logger] method: the level and the formatted text. *)
Definition log_record : Set := level * string.

(** A computation that logs and then returns or raises. *)
Definition run (A : Type) : Type := list log_record * outcome A.

Definition ret {A} (a : A) : run A := ([], Returns a).
Definition raise {A} (e : exn) : run A := ([], Raises e).
Definition log (l : level) (msg : string) : run unit := ([(l, msg)], Returns tt).

Definition bind {A B} (m : run A) (k : A -> run B) : run B :=
  match m with
  | (l1, Returns a) => let '(l2, r) := k a in (l1 ++ l2, r)
  | (l1, Raises e) => (l1, Raises e)
  end.

(** [try: body / except classes as e: handler e]. *)
Definition try_except {A} (body : run A) (classes : list exn_class)
    (handler : exn -> run A) : run A :=
  match body with
  | (l1, Raises e) =>
      if caught_by classes e
      then let '(l2, r) := handler e in (l1 ++ l2, r)
      else (l1, Raises e)
  | done => done
  end.

(** [try: body] followed by [except] clauses, tried in order. *)
Fixpoint first_clause {A} (clauses : list (exn_class * (exn -> run A)))
    (e : exn) : option (exn -> run A) :=
  match clauses with
  | [] => None
  | (c, h) :: rest =>
      if issubclass (exn_cls e) c then Some h else first_clause rest e
  end.

Definition try_ {A} (body : run A)
    (clauses : list (exn_class * (exn -> run A))) : run A :=
  match body with
  | (l1, Raises e) =>
      match first_clause clauses e with
      | Some h => let '(l2, r) := h e in (l1 ++ l2, r)
      | None => (l1, Raises e)
      end
  | done => done
  end.

Declare Scope run_scope.
Delimit Scope run_scope with run.
Notation "x <- m ;; k" := (bind m (fun x => k))
  (at level 100, m at next level, right associativity) : run_scope.
Notation "m ;; k" := (bind m (fun _ => k))
  (at level 100, right associativity) : run_scope.
Local Open Scope run_scope.

Definition logs {A} (m : run A) : list log_record := fst m.
Definition result {A} (m : run A) : outcome A := snd m.

(** The texts logged at one level, in order. *)
Definition logged (l : level) {A} (m : run A) : list string :=
  (filter (fun r : log_record => r.1 = l) (logs m)).*2.

(** ** JSON documents as Python values *)

(** What [json.load] returns.  A [float] is carried by its [repr]; the
    bindings of a [dict] are in insertion order, the keys distinct. *)
Inductive json : Set :=
| JNone
| JBool (b : bool)
| JInt (z : Z)
| JFloat (repr : string)
| JStr (s : string)
| JList (items : list json)
| JDict (bindings : list (string * json)).

(** [bool(v)]. *)
Definition truthy (v : json) : bool :=
  match v with
  | JNone => false
  | JBool b => b
  | JInt z => negb (z =? 0)%Z
  | JFloat r => negb (String.eqb r "0.0" || String.eqb r "-0.0")
  | JStr s => PyText.nonempty s
  | JList items => match items with [] => false | _ => true end
  | JDict bindings => match bindings with [] => false | _ => true end
  end.

(** [repr(v)]. *)
Fixpoint py_repr (v : json) : string :=
  match v with
  | JNone => "None"
  | JBool true => "True"
  | JBool false => "False"
  | JInt z => pretty z
  | JFloat r => r
  | JStr s => PyText.repr_str s
  | JList items => "[" +:+ PyText.join ", " (map py_repr items) +:+ "]"
  | JDict bindings =>
      "{" +:+ PyText.join ", "
                (map (fun kv => PyText.repr_str (fst kv) +:+ ": " +:+ py_repr (snd kv))
                     bindings) +:+ "}"
  end.

(** [str(v)]. *)
Definition py_str (v : json) : string :=
  match v with
  | JStr s => s
  | _ => py_repr v
  end.

(** [type(v).__name__]. *)
Definition type_name (v : json) : string :=
  match v with
  | JNone => "NoneType"
  | JBool _ => "bool"
  | JInt _ => "int"
  | JFloat _ => "float"
  | JStr _ => "str"
  | JList _ => "list"
  | JDict _ => "dict"
  end.

Fixpoint assoc (key : string) (bindings : list (string * json)) : option json :=
  match bindings with
  | [] => None
  | (k, v) :: rest => if String.eqb k key then Some v else assoc key rest
  end.

(** [v.get(key, dflt)]: only a [dict] has the method; on every other
    value the attribute lookup raises [AttributeError]. *)
Definition py_get (v : json) (key : string) (dflt : json) : run json :=
  match v with
  | JDict bindings => ret (default dflt (assoc key bindings))
  | _ => raise (mk_exn AttributeError
                  ("'" +:+ type_name v +:+ "' object has no attribute 'get'"))
  end.

(** The settings file [.auto-claude/settings.json] as the process finds it. *)
Inductive settings_file : Set :=
| Missing                          (* [settings_path.exists()] is false *)
| Unreadable (why : string)        (* [open] or the read raises [OSError] *)
| Undecodable (why : string)       (* not UTF-8: [UnicodeDecodeError] *)
| Malformed (why : string)         (* not JSON: [json.JSONDecodeError] *)
| Document (v : json).             (* [json.load] returns [v] *)

Definition settings_exists (f : settings_file) : bool :=
  match f with Missing => false | _ => true end.

(** [with open(settings_path, encoding="utf-8") as f: json.load(f)]. *)
Definition load_settings (f : settings_file) : run json :=
  match f with
  | Missing => raise (mk_exn FileNotFoundError "No such file or directory")
  | Unreadable why => raise (mk_exn OSError why)
  | Undecodable why => raise (mk_exn UnicodeDecodeError why)
  | Malformed why => raise (mk_exn JSONDecodeError why)
  | Document v => ret v
  end.

(** ** [core/cli_manager.py] *)

Module CLIType.
Inductive t : Set := CLAUDE | OPENCODE.

Definition value (c : t) : string :=
  match c with CLAUDE => "claude" | OPENCODE => "opencode" end.

(** The members in definition order (iteration over the class). *)
Definition members : list t := [CLAUDE; OPENCODE].

#[global] Instance eq_dec : EqDecision t.
Proof. solve_decision. Defined.
End CLIType.

Module CLIProvider.
Inductive t : Set := CLAUDE | OPENAI | GOOGLE | ZEN | LOCAL.

Definition value (p : t) : string :=
  match p with
  | CLAUDE => "claude" | OPENAI => "openai" | GOOGLE => "google"
  | ZEN => "zen" | LOCAL => "local"
  end.

Definition members : list t := [CLAUDE; OPENAI; GOOGLE; ZEN; LOCAL].

#[global] Instance eq_dec : EqDecision t.
Proof. solve_decision. Defined.

(** [CLIProvider(s)]: the member whose value is [s], or [ValueError]. *)
Definition of_value (s : string) : run t :=
  match List.find (fun p => String.eqb (value p) s) members with
  | Some p => ret p
  | None => raise (mk_exn ValueError
                     (PyText.repr_str s +:+ " is not a valid CLIProvider"))
  end.
End CLIProvider.

(** Environment variables *)
Definition CLI_PROVIDER_ENV : string := "CLI_PROVIDER".
Definition CLAUDE_CLI_PATH_ENV : string := "CLAUDE_CLI_PATH".
Definition OPENCODE_CLI_PATH_ENV : string := "OPENCODE_CLI_PATH".
Definition OPENCODE_PROVIDER_ENV : string := "OPENCODE_PROVIDER".
Definition OPENCODE_API_KEY_ENV : string := "OPENCODE_API_KEY".

(** Configuration files *)
Definition AUTO_CLAUDE_SETTINGS : string := ".auto-claude/settings.json".

(** [os.environ.get(name, "")]. *)
Definition environ_get (environ : gmap string string) (name : string) : string :=
  default "" (environ !! name).

(** An [Optional[str]] that is truthy: neither [None] nor empty. *)
Definition truthy_str (o : option string) : option string :=
  match o with
  | Some s => if PyText.nonempty s then Some s else None
  | None => None
  end.

(** What [subprocess.run(..., capture_output=True, text=True)] returns. *)
Record CompletedProcess : Set :=
  { returncode : Z; stdout : string; stderr : string }.

Module CLIManager.

(** The part of [_detect_cli] that reads the project settings: [Some]
    CLI when a [return] inside the [try] block is reached, [None] when
    control leaves the [if settings_path.exists()] statement. *)
Definition detect_in_settings (settings : settings_file)
  : run (option CLIType.t) :=
  if settings_exists settings then
    try_except
      (doc <- load_settings settings ;;
       cli <- py_get doc "cli" JNone ;;
       if truthy cli then
         let cli := PyText.lower (PyText.strip (py_str cli)) in
         if String.eqb cli (CLIType.value CLIType.OPENCODE) then
           log INFO ("CLI from settings: " +:+ CLIType.value CLIType.OPENCODE) ;;
           ret (Some CLIType.OPENCODE)
         else if String.eqb cli (CLIType.value CLIType.CLAUDE) then
           log INFO ("CLI from settings: " +:+ CLIType.value CLIType.CLAUDE) ;;
           ret (Some CLIType.CLAUDE)
         else
           log WARNING ("Invalid CLI value in settings: '" +:+ cli +:+ "'. "
                        +:+ "Using default: " +:+ CLIType.value CLIType.CLAUDE) ;;
           ret None
       else ret None)
      [JSONDecodeError; OSError; OSError]
      (fun e => log DEBUG ("Failed to read settings file: " +:+ exn_str e) ;;
                ret None)
  else ret None.

(** [_detect_cli] from its second comment on: settings file, then default. *)
Definition detect_after_env (settings : settings_file) : run CLIType.t :=
  found <- detect_in_settings settings ;;
  match found with
  | Some c => ret c
  | None =>
      log INFO ("Using default CLI: " +:+ CLIType.value CLIType.CLAUDE) ;;
      ret CLIType.CLAUDE
  end.

Definition invalid_cli_provider_warning (env_cli : string) : string :=
  "Invalid CLI_PROVIDER value: '" +:+ env_cli +:+ "'. "
  +:+ "Valid values: " +:+ PyText.join ", " (map CLIType.value CLIType.members)
  +:+ ". " +:+ "Falling back to default.".

Definition _detect_cli (environ : gmap string string)
    (settings : settings_file) : run CLIType.t :=
  let env_cli := PyText.lower (PyText.strip (environ_get environ CLI_PROVIDER_ENV)) in
  if PyText.nonempty env_cli then
    if String.eqb env_cli (CLIType.value CLIType.OPENCODE) then
      log INFO ("CLI from environment: " +:+ CLIType.value CLIType.OPENCODE) ;;
      ret CLIType.OPENCODE
    else if String.eqb env_cli (CLIType.value CLIType.CLAUDE) then
      log INFO ("CLI from environment: " +:+ CLIType.value CLIType.CLAUDE) ;;
      ret CLIType.CLAUDE
    else
      log WARNING (invalid_cli_provider_warning env_cli) ;;
      detect_after_env settings
  else detect_after_env settings.

(** [CLIManager(project_dir)]: the constructor stores the detected type. *)
Definition __init__ (environ : gmap string string) (settings : settings_file)
  : run CLIType.t :=
  cli_type <- _detect_cli environ settings ;;
  log INFO ("Initialized CLIManager with CLI type: " +:+ CLIType.value cli_type) ;;
  ret cli_type.

(** [exists_] is [Path.exists] and [which] is [shutil.which]; a path
    is the text it was built from. *)
Definition _find_claude_cli (environ : gmap string string)
    (exists_ : string -> bool) (which : string -> option string)
  : run (option string) :=
  from_env <-
    match truthy_str (environ !! CLAUDE_CLI_PATH_ENV) with
    | Some env_path =>
        if exists_ env_path then
          log INFO ("Claude CLI path from env: " +:+ env_path) ;;
          ret (Some env_path)
        else
          log WARNING ("CLAUDE_CLI_PATH set but path not found: " +:+ env_path) ;;
          ret None
    | None => ret None
    end ;;
  match from_env with
  | Some path => ret (Some path)
  | None =>
      match truthy_str (which "claude") with
      | Some path =>
          log INFO ("Claude CLI found in PATH: " +:+ path) ;;
          ret (Some path)
      | None =>
          log WARNING "Claude Code CLI not found" ;;
          ret None
      end
  end.

Definition _find_opencode_cli (environ : gmap string string)
    (exists_ : string -> bool) (which : string -> option string)
  : run (option string) :=
  from_env <-
    match truthy_str (environ !! OPENCODE_CLI_PATH_ENV) with
    | Some env_path =>
        if exists_ env_path then
          log INFO ("OpenCode CLI path from env: " +:+ env_path) ;;
          ret (Some env_path)
        else
          log WARNING ("OPENCODE_CLI_PATH set but path not found: " +:+ env_path) ;;
          ret None
    | None => ret None
    end ;;
  match from_env with
  | Some path => ret (Some path)
  | None =>
      match truthy_str (which "opencode") with
      | Some path =>
          log INFO ("OpenCode CLI found in PATH: " +:+ path) ;;
          ret (Some path)
      | None =>
          log WARNING "OpenCode CLI not found" ;;
          ret None
      end
  end.

Definition get_cli_path (cli_type : CLIType.t) (environ : gmap string string)
    (exists_ : string -> bool) (which : string -> option string)
  : run (option string) :=
  match cli_type with
  | CLIType.CLAUDE => _find_claude_cli environ exists_ which
  | CLIType.OPENCODE => _find_opencode_cli environ exists_ which
  end.

(** [probe path] is what
    [subprocess.run([path, "--version"], capture_output=True, text=True, timeout=10)]
    does: it returns the completed process or raises. *)
Definition validate_cli (cli_type : CLIType.t) (environ : gmap string string)
    (exists_ : string -> bool) (which : string -> option string)
    (probe : string -> outcome CompletedProcess) : run (bool * string) :=
  cli_path <- get_cli_path cli_type environ exists_ which ;;
  let cli_name := PyText.title (CLIType.value cli_type) in
  match cli_path with
  | None => ret (false, cli_name +:+ " CLI not found at: " +:+ "unknown path")
  | Some cli_path =>
      if negb (exists_ cli_path) then
        ret (false, cli_name +:+ " CLI exists but is not executable: " +:+ cli_path)
      else
        try_
          (result <- ([], probe cli_path) ;;
           if (returncode result =? 0)%Z then
             let version_info :=
               PyText.str_or (PyText.strip (stdout result))
                             (PyText.strip (stderr result)) in
             log INFO (cli_name +:+ " CLI version: " +:+ version_info) ;;
             ret (true, cli_name +:+ " CLI is working (version: "
                        +:+ version_info +:+ ")")
           else
             let error_msg :=
               PyText.str_or (PyText.strip (stderr result))
                 (PyText.str_or (PyText.strip (stdout result)) "Unknown error") in
             log WARNING (cli_name +:+ " CLI --version failed: " +:+ error_msg) ;;
             ret (false, cli_name +:+ " CLI exists but --version command failed: "
                         +:+ error_msg))
          [ (TimeoutExpired, fun _ =>
               ret (false, cli_name +:+ " CLI timed out when checking version"));
            (FileNotFoundError, fun _ =>
               ret (false, cli_name +:+ " CLI executable not found: " +:+ cli_path));
            (PermissionError, fun _ =>
               ret (false, cli_name +:+ " CLI found but no execute permission: "
                           +:+ cli_path));
            (Exception, fun e =>
               log ERROR ("Error validating " +:+ cli_name +:+ " CLI") ;;
               ret (false, "Failed to validate " +:+ cli_name +:+ " CLI: "
                           +:+ exn_str e)) ]
  end.

Definition invalid_provider_warning (provider_str : string) : string :=
  "Invalid OpenCode provider: '" +:+ provider_str +:+ "'. "
  +:+ "Falling back to default: " +:+ CLIProvider.value CLIProvider.CLAUDE.

Definition get_opencode_provider (environ : gmap string string)
    (settings : settings_file) : run CLIProvider.t :=
  let provider_str :=
    PyText.lower (PyText.strip (environ_get environ OPENCODE_PROVIDER_ENV)) in
  provider_str <-
    (if negb (PyText.nonempty provider_str) then
       if settings_exists settings then
         try_except
           (doc <- load_settings settings ;;
            opencode_config <- py_get doc "opencode" (JDict []) ;;
            provider <- py_get opencode_config "provider" JNone ;;
            if truthy provider
            then ret (PyText.lower (PyText.strip (py_str provider)))
            else ret provider_str)
           [JSONDecodeError; OSError]
           (fun _ => ret provider_str)
       else ret provider_str
     else ret provider_str) ;;
  let provider_str :=
    if negb (PyText.nonempty provider_str)
    then CLIProvider.value CLIProvider.CLAUDE else provider_str in
  try_except (CLIProvider.of_value provider_str) [ValueError]
    (fun _ => log WARNING (invalid_provider_warning provider_str) ;;
              ret CLIProvider.CLAUDE).

(** The three accessors of the stored type. *)
Definition get_cli_type (cli_type : CLIType.t) : CLIType.t := cli_type.

Definition is_claude_cli (cli_type : CLIType.t) : bool :=
  bool_decide (cli_type = CLIType.CLAUDE).

Definition is_opencode_cli (cli_type : CLIType.t) : bool :=
  bool_decide (cli_type = CLIType.OPENCODE).

(** [get_auth_info]: the dict literal of each branch, its items in the
    order they are written. *)
Definition get_auth_info (cli_type : CLIType.t) : list (string * json) :=
  if bool_decide (cli_type = CLIType.CLAUDE) then
    [ ("cli", JStr "claude");
      ("type", JStr "oauth");
      ("env_vars", JList [JStr "CLAUDE_CODE_OAUTH_TOKEN"; JStr "ANTHROPIC_AUTH_TOKEN"]);
      ("supports_keychain", JBool true);
      ("requires_oauth", JBool true) ]
  else
    [ ("cli", JStr "opencode");
      ("type", JStr "multi_provider");
      ("env_vars", JList [JStr OPENCODE_PROVIDER_ENV; JStr OPENCODE_API_KEY_ENV]);
      ("supports_keychain", JBool true);
      ("requires_oauth", JBool false);
      ("providers", JList (map (fun p => JStr (CLIProvider.value p)) CLIProvider.members)) ].

End CLIManager.

(** [get_cli_manager(project_dir)]. *)
Definition get_cli_manager (environ : gmap string string) (settings : settings_file)
  : run CLIType.t :=
  CLIManager.__init__ environ settings.

(** *** Printing *)

(** What a function writes: lines given to [print], and log records. *)
Inductive output : Set :=
| Printed (text : string)
| Logged (record : log_record).

(** A computation that prints and logs, then returns or raises. *)
Definition io (A : Type) : Type := list output * outcome A.

Definition io_ret {A} (a : A) : io A := ([], Returns a).
Definition print (text : string) : io unit := ([Printed text], Returns tt).
Definition lift {A} (m : run A) : io A := (map Logged (logs m), result m).

Definition io_bind {A B} (m : io A) (k : A -> io B) : io B :=
  match m with
  | (o1, Returns a) => let '(o2, r) := k a in (o1 ++ o2, r)
  | (o1, Raises e) => (o1, Raises e)
  end.

Declare Scope io_scope.
Delimit Scope io_scope with io.
Notation "x <-- m ;; k" := (io_bind m (fun x => k))
  (at level 100, m at next level, right associativity) : io_scope.
Notation "m ;;; k" := (io_bind m (fun _ => k))
  (at level 100, right associativity) : io_scope.

(** The lines printed, in order. *)
Definition printed {A} (m : io A) : list string :=
  omap (fun o => match o with Printed text => Some text | Logged _ => None end) (fst m).

(** [d[key]] on a dict.  A missing key raises [KeyError], carried here
    as its ancestor [Exception], the only one of its classes that a
    clause of the two files names. *)
Definition py_getitem (d : list (string * json)) (key : string) : run json :=
  match assoc key d with
  | Some v => ret v
  | None => raise (mk_exn Exception (PyText.repr_str key))
  end.

(** [for item in items: body item]. *)
Fixpoint io_for {A} (items : list A) (body : A -> io unit) : io unit :=
  match items with
  | [] => io_ret tt
  | item :: rest => io_bind (body item) (fun _ => io_for rest body)
  end.

(** [None] prints as [None], a path as its text. *)
Definition path_str (path : option string) : string :=
  match path with
  | Some p => p
  | None => "None"
  end.

Definition rule : string := PyText.repeat 60 "=".

(** [print_cli_info(cli_manager)], for a manager whose stored type is
    [cli_type] and whose project has the settings file [settings]. *)
Definition print_cli_info (cli_type : CLIType.t) (environ : gmap string string)
    (settings : settings_file) (exists_ : string -> bool)
    (which : string -> option string) : io unit :=
  (let cli_type := CLIManager.get_cli_type cli_type in
   cli_path <-- lift (CLIManager.get_cli_path cli_type environ exists_ which) ;;
   let auth_info := CLIManager.get_auth_info cli_type in
   print (String (ascii_of_N 10) rule) ;;;
   print "CLI Configuration" ;;;
   print rule ;;;
   print ("CLI Type: " +:+ CLIType.value cli_type) ;;;
   print ("CLI Path: " +:+ path_str cli_path) ;;;
   auth_type <-- lift (py_getitem auth_info "type") ;;
   print ("Auth Type: " +:+ py_str auth_type) ;;;
   (if bool_decide (cli_type = CLIType.OPENCODE) then
      provider <-- lift (CLIManager.get_opencode_provider environ settings) ;;
      print ("OpenCode Provider: " +:+ CLIProvider.value provider)
    else io_ret tt) ;;;
   print (rule +:+ String (ascii_of_N 10) EmptyString) ;;;
   let debug :=
     existsb (String.eqb (PyText.lower (environ_get environ "DEBUG"))) ["true"; "1"] in
   if debug then
     print "Authentication Configuration:" ;;;
     io_for auth_info
       (fun item => print ("  " +:+ fst item +:+ ": " +:+ py_str (snd item))) ;;;
     print EmptyString
   else io_ret tt)%io.

(** ** [core/__init__.py] *)

Module Core.

Definition __all__ : list string :=
  [ "run_autonomous_agent";
    "run_followup_planner";
    "WorkspaceManager";
    "WorktreeManager";
    "ProgressTracker";
    "create_claude_client";
    "ClaudeClient";
    "CLIType";
    "CLIProvider";
    "CLIManager";
    "get_cli_manager" ].

(** [name in (a, b, ...)]. *)
Definition among (name : string) (names : list string) : bool :=
  existsb (String.eqb name) names.

(** The module-level [__getattr__(name)] of the package whose
    [__name__] is [package]: the submodule it imports and the attribute
    it reads there, or [AttributeError]. *)
Definition __getattr__ (package name : string) : outcome (string * string) :=
  if among name ["run_autonomous_agent"; "run_followup_planner"] then
    Returns ("agent", name)
  else if String.eqb name "WorkspaceManager" then
    Returns ("workspace", "WorkspaceManager")
  else if String.eqb name "WorktreeManager" then
    Returns ("worktree", "WorktreeManager")
  else if String.eqb name "ProgressTracker" then
    Returns ("progress", "ProgressTracker")
  else if among name ["create_client"; "ClaudeClient"] then
    Returns ("client", name)
  else if among name ["CLIType"; "CLIProvider"; "CLIManager"; "get_cli_manager";
                      "print_cli_info"] then
    Returns ("cli_manager", name)
  else
    Raises (mk_exn AttributeError
              ("module " +:+ PyText.repr_str package +:+ " has no attribute "
               +:+ PyText.repr_str name)).

End Core.

(** ** [cli/main.py]: the argument layer *)

(** The values [argparse] stores in the namespace. *)
Inductive pyval : Set :=
| VNone
| VStr (s : string)
| VInt (z : Z)
| VEmptyList.

(** [bool(v)]. *)
Definition is_true (v : pyval) : bool :=
  match v with
  | VNone | VEmptyList => false
  | VStr s => PyText.nonempty s
  | VInt z => negb (z =? 0)%Z
  end.

(** [str(v)]. *)
Definition val_str (v : pyval) : string :=
  match v with
  | VNone => "None"
  | VStr s => s
  | VInt z => pretty z
  | VEmptyList => "[]"
  end.

Module Args.

(** The [store_true] options, named by the attribute they set. *)
Inductive flag : Set :=
| list | info | verbose | isolated | direct
| merge | review | discard | create_pr
| pr_draft | no_commit | merge_preview
| qa | qa_status | skip_qa | followup | review_status
| auto_continue | list_worktrees | cleanup_worktrees | force
| batch_status | batch_cleanup | no_dry_run.

(** The options that store one value. *)
Inductive opt : Set :=
| spec | project_dir | max_iterations | model | cli
| pr_target | pr_title | base_branch | batch_create.

#[global] Instance flag_eq_dec : EqDecision flag.
Proof. solve_decision. Defined.
#[global] Instance opt_eq_dec : EqDecision opt.
Proof. solve_decision. Defined.

(** [argparse.Namespace]: [on args f] is [args.f] for a flag,
    [value args o] is [args.o] for a valued option. *)
Record t : Set := { on : flag -> bool; value : opt -> pyval }.

Definition defaults : t := {| on := fun _ => false; value := fun _ => VNone |}.

Definition set_flag (f : flag) (args : t) : t :=
  {| on := fun g => if decide (g = f) then true else on args g;
     value := value args |}.

Definition set_value (o : opt) (v : pyval) (args : t) : t :=
  {| on := on args;
     value := fun p => if decide (p = o) then v else value args p |}.

End Args.

(** What [add_argument] registered for an option string. *)
Inductive action : Set :=
| help
| store_true (dest : Args.flag)
| store (dest : Args.opt).

#[global] Instance action_eq_dec : EqDecision action.
Proof. solve_decision. Defined.

(** The option strings of [parse_args], in registration order
    ([-h] and [--help] are the parser's own). *)
Definition option_strings : list (string * action) :=
  [ ("-h", help); ("--help", help);
    ("--list", store_true Args.list);
    ("--spec", store Args.spec);
    ("--project-dir", store Args.project_dir);
    ("--max-iterations", store Args.max_iterations);
    ("--model", store Args.model);
    ("--cli", store Args.cli);
    ("--info", store_true Args.info);
    ("--verbose", store_true Args.verbose);
    ("--isolated", store_true Args.isolated);
    ("--direct", store_true Args.direct);
    ("--merge", store_true Args.merge);
    ("--review", store_true Args.review);
    ("--discard", store_true Args.discard);
    ("--create-pr", store_true Args.create_pr);
    ("--pr-target", store Args.pr_target);
    ("--pr-title", store Args.pr_title);
    ("--pr-draft", store_true Args.pr_draft);
    ("--no-commit", store_true Args.no_commit);
    ("--merge-preview", store_true Args.merge_preview);
    ("--qa", store_true Args.qa);
    ("--qa-status", store_true Args.qa_status);
    ("--skip-qa", store_true Args.skip_qa);
    ("--followup", store_true Args.followup);
    ("--review-status", store_true Args.review_status);
    ("--auto-continue", store_true Args.auto_continue);
    ("--list-worktrees", store_true Args.list_worktrees);
    ("--cleanup-worktrees", store_true Args.cleanup_worktrees);
    ("--force", store_true Args.force);
    ("--base-branch", store Args.base_branch);
    ("--batch-create", store Args.batch_create);
    ("--batch-status", store_true Args.batch_status);
    ("--batch-cleanup", store_true Args.batch_cleanup);
    ("--no-dry-run", store_true Args.no_dry_run) ].

(** The two [add_mutually_exclusive_group()] groups of [parse_args]. *)
Inductive group : Set := workspace_group | build_group.

#[global] Instance group_eq_dec : EqDecision group.
Proof. solve_decision. Defined.

(** The group an option was added to, if it was added to one. *)
Definition group_of (f : Args.flag) : option group :=
  match f with
  | Args.isolated | Args.direct => Some workspace_group
  | Args.merge | Args.review | Args.discard | Args.create_pr => Some build_group
  | _ => None
  end.

(** [choices=] of [--cli]. *)
Definition cli_choices : list string := ["claude"; "opencode"].

(** [int(s)], base ten: surrounding white space, a sign, digits with
    single underscores between them; at most 4300 digits. *)
Module PyInt.

Definition is_digit (c : ascii) : bool :=
  ((48 <=? PyText.code c) && (PyText.code c <=? 57))%N.

(** White space as [int] sees it. *)
Definition is_int_space (c : ascii) : bool :=
  let n := PyText.code c in
  ((9 <=? n) && (n <=? 13) || (n =? 32) || (n =? 133) || (n =? 160))%N.

Fixpoint lstrip (s : string) : string :=
  match s with
  | EmptyString => EmptyString
  | String c r => if is_int_space c then lstrip r else s
  end.

Fixpoint all_space (s : string) : bool :=
  match s with
  | EmptyString => true
  | String c r => is_int_space c && all_space r
  end.

(** Reads [digit (_? digit)*] followed by white space only;
    [after_digit] tells whether an underscore may come next. *)
Fixpoint digits (after_digit : bool) (acc : Z) (count : nat) (s : string)
  : option (Z * nat) :=
  match s with
  | EmptyString => if after_digit then Some (acc, count) else None
  | String c r =>
      if is_digit c then
        digits true (10 * acc + Z.of_N (PyText.code c - 48))%Z (S count) r
      else if Ascii.eqb c "_" then
        if after_digit then digits false acc count r else None
      else if after_digit && all_space s then Some (acc, count)
      else None
  end.

Definition unsigned (s : string) : option Z :=
  match s with
  | EmptyString => None
  | String c _ =>
      if is_digit c then
        match digits false 0 0 s with
        | Some (z, count) => if (count <=? 4300)%nat then Some z else None
        | None => None
        end
      else None
  end.

Definition parse (s : string) : option Z :=
  match lstrip s with
  | String "+" r => unsigned r
  | String "-" r => Z.opp <$> unsigned r
  | r => unsigned r
  end.

End PyInt.

(** [argparse.ArgumentParser.parse_args] (CPython 3.11) on a parser
    that has optional arguments only. *)
Module Argparse.

(** How [_parse_optional] reads one command-line string. *)
Inductive token : Set :=
| A                                   (* an argument *)
| Dashes                              (* the first [--] *)
| O (name : string) (act : action) (explicit_arg : option string)
| O_unknown.                          (* option-like, matching nothing *)

Inductive outcome : Set :=
| Namespace (args : Args.t)           (* [parse_args] returns *)
| Help                                (* help printed, [SystemExit(0)] *)
| Error (message : string).           (* [parser.error]: [SystemExit(2)] *)

Definition lookup (name : string) : option action :=
  snd <$> List.find (fun entry => String.eqb (fst entry) name) option_strings.

(** [s.split('=', 1)] when [s] holds an equals sign. *)
Fixpoint split_eq (s : string) : option (string * string) :=
  match s with
  | EmptyString => None
  | String c r =>
      if Ascii.eqb c "=" then Some (EmptyString, r)
      else match split_eq r with
           | Some (name, arg) => Some (String c name, arg)
           | None => None
           end
  end.

Fixpoint all_digits (s : string) : bool :=
  match s with
  | EmptyString => true
  | String c r => PyInt.is_digit c && all_digits r
  end.

Fixpoint drop_digits (s : string) : string :=
  match s with
  | String c r => if PyInt.is_digit c then drop_digits r else s
  | EmptyString => EmptyString
  end.

(** Drops one final newline: where [$] also matches. *)
Fixpoint chomp (s : string) : string :=
  match s with
  | EmptyString => EmptyString
  | String c EmptyString => if (PyText.code c =? 10)%N then EmptyString else s
  | String c r => String c (chomp r)
  end.

(** [_negative_number_matcher]: [^-\d+$|^-\d*\.\d+$]. *)
Definition is_negative_number (s : string) : bool :=
  match chomp s with
  | String "-" r =>
      PyText.nonempty r && all_digits r
      || match drop_digits r with
         | String "." f => PyText.nonempty f && all_digits f
         | _ => false
         end
  | _ => false
  end.

Definition second_is_dash (s : string) : bool :=
  match s with
  | String _ (String "-" _) => true
  | _ => false
  end.

Definition first_two (s : string) : string :=
  match s with
  | String a (String b _) => String a (String b EmptyString)
  | _ => s
  end.

Definition after_two (s : string) : string :=
  match s with
  | String _ (String _ r) => r
  | _ => EmptyString
  end.

(** [_get_option_tuples]: the registered options a string abbreviates. *)
Definition _get_option_tuples (option_string : string) : list token :=
  if second_is_dash option_string then
    let '(option_prefix, explicit_arg) :=
      match split_eq option_string with
      | Some (p, e) => (p, Some e)
      | None => (option_string, None)
      end in
    omap (fun entry : string * action =>
            if String.prefix option_prefix (fst entry)
            then Some (O (fst entry) (snd entry) explicit_arg) else None)
         option_strings
  else
    omap (fun entry : string * action =>
            if String.eqb (fst entry) (first_two option_string)
            then Some (O (fst entry) (snd entry) (Some (after_two option_string)))
            else if String.prefix option_string (fst entry)
            then Some (O (fst entry) (snd entry) None)
            else None)
         option_strings.

Definition token_name (t : token) : string :=
  match t with O name _ _ => name | _ => EmptyString end.

(** [_parse_optional]: a token, or the text of the ambiguity error. *)
Definition _parse_optional (arg_string : string) : token + string :=
  match arg_string with
  | EmptyString => inl A
  | String c rest =>
      if negb (Ascii.eqb c "-") then inl A
      else
        match lookup arg_string with
        | Some act => inl (O arg_string act None)
        | None =>
            if negb (PyText.nonempty rest) then inl A
            else
              let with_eq :=
                match split_eq arg_string with
                | Some (name, arg) =>
                    match lookup name with
                    | Some act => Some (O name act (Some arg))
                    | None => None
                    end
                | None => None
                end in
              match with_eq with
              | Some t => inl t
              | None =>
                  match _get_option_tuples arg_string with
                  | [t] => inl t
                  | [] =>
                      if is_negative_number arg_string then inl A
                      else if PyText.mem_char " " arg_string then inl A
                      else inl O_unknown
                  | many =>
                      inr ("ambiguous option: " +:+ arg_string +:+ " could match "
                           +:+ PyText.join ", " (map token_name many))
                  end
              end
        end
  end.

(** The first loop of [_parse_known_args]: every string is read
    before any action runs; what follows the first [--] is arguments. *)
Fixpoint classify (arg_strings : list string) : list (string * token) + string :=
  match arg_strings with
  | [] => inl []
  | s :: rest =>
      if String.eqb s "--" then
        inl ((s, Dashes) :: map (fun r => (r, A)) rest)
      else
        match _parse_optional s with
        | inr err => inr err
        | inl t =>
            match classify rest with
            | inr err => inr err
            | inl ts => inl ((s, t) :: ts)
            end
        end
  end.

(** The name of an action in error messages. *)
Definition action_name (act : action) : string :=
  PyText.join "/"
    (map fst (List.filter (fun entry => bool_decide (snd entry = act)) option_strings)).

(** The actions of a group, in the order they were added. *)
Definition group_actions (g : group) : list action :=
  List.filter
    (fun act => match act with
                | store_true f => bool_decide (group_of f = Some g)
                | _ => false
                end)
    (map snd option_strings).

(** The check of [take_action]: an action already seen that shares a
    mutually exclusive group with [act]. *)
Definition conflict (seen : list action) (act : action) : option action :=
  match act with
  | store_true f =>
      match group_of f with
      | Some g =>
          List.find (fun other => negb (bool_decide (other = act))
                                  && bool_decide (other ∈ seen))
                    (group_actions g)
      | None => None
      end
  | _ => None
  end.

(** [_get_values] for an option with one argument: [type=] and
    [choices=] applied; the string [--] is removed first, which
    leaves nothing to convert. *)
Definition get_value (dest : Args.opt) (arg_string : string) : pyval + string :=
  if String.eqb arg_string "--" then inl VEmptyList
  else
    match dest with
    | Args.max_iterations =>
        match PyInt.parse arg_string with
        | Some z => inl (VInt z)
        | None => inr ("argument " +:+ action_name (store dest)
                       +:+ ": invalid int value: " +:+ PyText.repr_str arg_string)
        end
    | Args.cli =>
        if existsb (String.eqb arg_string) cli_choices then inl (VStr arg_string)
        else inr ("argument " +:+ action_name (store dest)
                  +:+ ": invalid choice: " +:+ PyText.repr_str arg_string
                  +:+ " (choose from "
                  +:+ PyText.join ", " (map PyText.repr_str cli_choices) +:+ ")")
    | _ => inl (VStr arg_string)
    end.

Fixpoint drop_h (s : string) : string :=
  match s with
  | String "h" r => drop_h r
  | _ => s
  end.

Definition ignored_explicit (act : action) (explicit_arg : string) : outcome :=
  Error ("argument " +:+ action_name act +:+ ": ignored explicit argument "
         +:+ PyText.repr_str explicit_arg).

(** The second loop of [_parse_known_args]: options are consumed
    left to right; strings that belong to no option are [extras],
    reported when the end is reached. *)
Fixpoint consume (tokens : list (string * token)) (seen : list action)
    (extras : list string) (args : Args.t) : outcome :=
  match tokens with
  | [] =>
      match extras with
      | [] => Namespace args
      | _ => Error ("unrecognized arguments: " +:+ PyText.join " " extras)
      end
  | (s, (A | Dashes | O_unknown)) :: rest => consume rest seen (extras ++ [s]) args
  | (_, O name help explicit_arg) :: _ =>
      match explicit_arg with
      | None => Help
      | Some e =>
          (* [-hh]: a cluster of short flags *)
          if String.eqb name "-h" then
            if PyText.nonempty e && negb (PyText.nonempty (drop_h e)) then Help
            else ignored_explicit help (drop_h e)
          else ignored_explicit help e
      end
  | (_, O _ (store_true f) explicit_arg) :: rest =>
      match explicit_arg with
      | Some e => ignored_explicit (store_true f) e
      | None =>
          match conflict seen (store_true f) with
          | Some other =>
              Error ("argument " +:+ action_name (store_true f)
                     +:+ ": not allowed with argument " +:+ action_name other)
          | None => consume rest (store_true f :: seen) extras (Args.set_flag f args)
          end
      end
  | (_, O _ (store dest) explicit_arg) :: rest =>
      let expected_one :=
        Error ("argument " +:+ action_name (store dest) +:+ ": expected one argument") in
      match explicit_arg with
      | Some e =>
          match get_value dest e with
          | inl v => consume rest seen extras (Args.set_value dest v args)
          | inr err => Error err
          end
      | None =>
          match rest with
          | (arg_string, A) :: rest' =>
              match get_value dest arg_string with
              | inl v => consume rest' seen extras (Args.set_value dest v args)
              | inr err => Error err
              end
          | _ => expected_one
          end
      end
  end.

Definition parse_args (argv : list string) : outcome :=
  match classify argv with
  | inr err => Error err
  | inl tokens => consume tokens [] [] Args.defaults
  end.

End Argparse.

(** [parse_args()], on the arguments of the process. *)
Definition parse_args : list string -> Argparse.outcome := Argparse.parse_args.

(** ** [cli/main.py]: dispatch *)

(** The functions [_run_cli] calls outside the file. *)
Inductive callee : Set :=
| get_project_dir
| print_cli_and_auth_info
| print_banner
| find_spec
| print_specs_list
| set_context
| handle_merge_preview_command
| handle_merge_command
| handle_review_command
| handle_discard_command
| handle_create_pr_command
| handle_qa_status_command
| handle_review_status_command
| handle_qa_command
| handle_followup_command
| handle_build_command.

#[global] Instance callee_eq_dec : EqDecision callee.
Proof. solve_decision. Defined.

(** What [_run_cli] does that can be observed, in order.  A [Call]
    carries [os.environ] as the callee finds it; the arguments passed
    are not recorded. *)
Inductive event : Type :=
| Debug (message : string)            (* [debug], [debug_section], ... *)
| Print (text : string)
| Call (f : callee) (environ : gmap string string).

(** How the function ends. *)
Inductive status : Set :=
| Returned
| SystemExit (code : Z)
| Raised (e : exn_class).

(** What the collaborators answer during one run. *)
Record answers : Set :=
  { project_dir_is : string;               (* [get_project_dir(args.project_dir)] *)
    spec_dir_of : pyval -> option string;  (* [find_spec(project_dir, args.spec)] *)
    merge_preview_json : string;           (* [json.dumps] of the preview result *)
    merge_succeeds : bool;                 (* [handle_merge_command] *)
    create_pr_succeeds : bool }.           (* [result.get("success")], as a truth value *)

Record process : Type :=
  { environ : gmap string string; trace : list event }.

(** A piece of the function body: it updates the process, and either
    ends the function ([Some]) or lets control go on ([None]). *)
Definition cmd : Type := process -> process * option status.

Definition skip : cmd := fun p => (p, None).
Definition seq (a b : cmd) : cmd :=
  fun p => match a p with
           | (p', None) => b p'
           | ended => ended
           end.
Definition emit (e : event) : cmd :=
  fun p => ({| environ := environ p; trace := trace p ++ [e] |}, None).
Definition call (f : callee) : cmd :=
  fun p => emit (Call f (environ p)) p.
Definition setenv (name value : string) : cmd :=
  fun p => ({| environ := <[name := value]> (environ p); trace := trace p |}, None).
Definition end_with (s : status) : cmd := fun p => (p, Some s).
Definition when (b : bool) (c : cmd) : cmd := if b then c else skip.

Declare Scope cmd_scope.
Delimit Scope cmd_scope with cmd.
Notation "a ;;; b" := (seq a b) (at level 100, right associativity) : cmd_scope.

Definition nl : string := String (ascii_of_N 10) EmptyString.

Section Dispatch.

Variable w : answers.
Variable args : Args.t.

Local Open Scope cmd_scope.

(** [if args.cli: os.environ["CLI_PROVIDER"] = args.cli; debug(...)]. *)
Definition force_cli : cmd :=
  match Args.value args Args.cli with
  | VStr cli =>
      when (PyText.nonempty cli)
        (setenv "CLI_PROVIDER" cli ;;;
         emit (Debug ("CLI type forced to: " +:+ cli)))
  | VInt z => when (negb (z =? 0)%Z) (end_with (Raised TypeError))
  | VNone | VEmptyList => skip
  end.

(** The branch taken when [args.spec] is falsy. *)
Definition spec_required : cmd :=
  call print_banner ;;;
  emit (Print (nl +:+ "Error: --spec is required")) ;;;
  emit (Print (nl +:+ "Usage:")) ;;;
  emit (Print "  python auto-claude/run.py --list           # See all specs") ;;;
  emit (Print "  python auto-claude/run.py --spec 001       # Run a spec") ;;;
  emit (Print (nl +:+ "Create a new spec with:")) ;;;
  emit (Print "  claude /spec") ;;;
  end_with (SystemExit 1).

(** The branch taken when [find_spec] returns nothing. *)
Definition spec_not_found : cmd :=
  emit (Debug "Spec not found") ;;;
  call print_banner ;;;
  emit (Print (nl +:+ "Error: Spec '" +:+ val_str (Args.value args Args.spec)
               +:+ "' not found")) ;;;
  emit (Print (nl +:+ "Available specs:")) ;;;
  call print_specs_list ;;;
  end_with (SystemExit 1).

(** From [# Handle build management commands] to the end. *)
Definition run_command : cmd :=
  when (Args.on args Args.merge_preview)
    (call handle_merge_preview_command ;;;
     emit (Print (merge_preview_json w)) ;;;
     end_with Returned) ;;;
  when (Args.on args Args.merge)
    (call handle_merge_command ;;;
     when (negb (merge_succeeds w)) (end_with (SystemExit 1)) ;;;
     end_with Returned) ;;;
  when (Args.on args Args.review)
    (call handle_review_command ;;; end_with Returned) ;;;
  when (Args.on args Args.discard)
    (call handle_discard_command ;;; end_with Returned) ;;;
  when (Args.on args Args.create_pr)
    (call handle_create_pr_command ;;;
     when (negb (create_pr_succeeds w)) (end_with (SystemExit 1)) ;;;
     end_with Returned) ;;;
  when (Args.on args Args.qa_status)
    (call handle_qa_status_command ;;; end_with Returned) ;;;
  when (Args.on args Args.review_status)
    (call handle_review_status_command ;;; end_with Returned) ;;;
  when (Args.on args Args.qa)
    (call handle_qa_command ;;; end_with Returned) ;;;
  when (Args.on args Args.followup)
    (call handle_followup_command ;;; end_with Returned) ;;;
  call handle_build_command ;;;
  end_with Returned.

(** [_run_cli] after [args = parse_args()].  The source repeats the
    line [if not args.spec:]; the test is made once here. *)
Definition run_parsed : cmd :=
  emit (Debug "Starting Auto-Build Framework") ;;;
  emit (Debug "Arguments parsed") ;;;
  call get_project_dir ;;;
  emit (Debug ("Using project directory: " +:+ project_dir_is w)) ;;;
  force_cli ;;;
  when (Args.on args Args.info)
    (call print_cli_and_auth_info ;;; end_with Returned) ;;;
  when (negb (is_true (Args.value args Args.spec))) spec_required ;;;
  emit (Debug "Finding spec") ;;;
  call find_spec ;;;
  match spec_dir_of w (Args.value args Args.spec) with
  | None => spec_not_found
  | Some _ =>
      emit (Debug "Spec found") ;;;
      call set_context ;;;
      run_command
  end.

End Dispatch.

(** [_run_cli()] in a process started with the arguments [argv]. *)
Definition _run_cli (w : answers) (argv : list string) : cmd :=
  match parse_args argv with
  | Argparse.Namespace args => run_parsed w args
  | Argparse.Help => end_with (SystemExit 0)
  | Argparse.Error _ => end_with (SystemExit 2)
  end.

(** The calls made during a run, in order. *)
Definition calls (t : list event) : list callee :=
  omap (fun e => match e with Call f _ => Some f | _ => None end) t.

(** The handlers of the spec-scoped terminal operations. *)
Definition is_terminal_handler (f : callee) : bool :=
  match f with
  | handle_merge_preview_command | handle_merge_command | handle_review_command
  | handle_discard_command | handle_create_pr_command | handle_qa_status_command
  | handle_review_status_command | handle_qa_command | handle_followup_command
  | handle_build_command => true
  | _ => false
  end.

(** The terminal-operation handlers that ran, in order. *)
Definition handlers_run (t : list event) : list callee :=
  List.filter is_terminal_handler (calls t).

(** The priority order of the specification, as a table: a flag and
    the handler of its operation, highest priority first. *)
Definition priority_order : list (Args.flag * callee) :=
  [ (Args.merge_preview, handle_merge_preview_command);
    (Args.merge, handle_merge_command);
    (Args.review, handle_review_command);
    (Args.discard, handle_discard_command);
    (Args.create_pr, handle_create_pr_command);
    (Args.qa_status, handle_qa_status_command);
    (Args.review_status, handle_review_status_command);
    (Args.qa, handle_qa_command);
    (Args.followup, handle_followup_command) ].

(** The handler of the highest-priority flag that is set, the default
    build when none is. *)
Definition selected_handler (args : Args.t) : callee :=
  match List.find (fun entry => Args.on args (fst entry)) priority_order with
  | Some entry => snd entry
  | None => handle_build_command
  end.

(** The terminal-operation flags. *)
Definition terminal_flags : list Args.flag := map fst priority_order.

(** ** The specification's words, and what the proofs maintain *)

(** Where the settings step cannot raise: the file is absent, cannot be
    opened, is not JSON, or holds a JSON object. *)
Definition settings_tolerated (settings : settings_file) : bool :=
  match settings with
  | Missing | Unreadable _ | Malformed _ | Document (JDict _) => true
  | Undecodable _ | Document _ => false
  end.

(** What the probe reported: the text the verdict quotes. *)
Definition reported_text (r : CompletedProcess) : string :=
  if (returncode r =? 0)%Z
  then PyText.str_or (PyText.strip (stdout r)) (PyText.strip (stderr r))
  else PyText.str_or (PyText.strip (stderr r))
         (PyText.str_or (PyText.strip (stdout r)) "Unknown error").

(** The classification of a version probe in the specification's
    words: exit code 0 is success, every other ending a failure with
    its own message. *)
Definition probe_verdict (cli_name cli_path : string)
    (probe : outcome CompletedProcess) : bool * string :=
  match probe with
  | Returns r =>
      if (returncode r =? 0)%Z
      then (true, cli_name +:+ " CLI is working (version: " +:+ reported_text r +:+ ")")
      else (false, cli_name +:+ " CLI exists but --version command failed: "
                   +:+ reported_text r)
  | Raises e =>
      match exn_cls e with
      | TimeoutExpired => (false, cli_name +:+ " CLI timed out when checking version")
      | FileNotFoundError => (false, cli_name +:+ " CLI executable not found: " +:+ cli_path)
      | PermissionError =>
          (false, cli_name +:+ " CLI found but no execute permission: " +:+ cli_path)
      | _ => (false, "Failed to validate " +:+ cli_name +:+ " CLI: " +:+ exn_str e)
      end
  end.

(** The whole classification: executable absent, path gone, or probed. *)
Definition validation_verdict (cli_name : string) (located : option string)
    (exists_ : string -> bool) (probe : string -> outcome CompletedProcess)
  : bool * string :=
  match located with
  | None => (false, cli_name +:+ " CLI not found at: unknown path")
  | Some cli_path =>
      if exists_ cli_path then probe_verdict cli_name cli_path (probe cli_path)
      else (false, cli_name +:+ " CLI exists but is not executable: " +:+ cli_path)
  end.

(** The option string a flag was registered under. *)
Definition flag_option (f : Args.flag) : string :=
  match List.find (fun entry => bool_decide (snd entry = store_true f)) option_strings with
  | Some entry => fst entry
  | None => EmptyString
  end.

(** What [args.cli] can be after parsing. *)
Definition cli_value_ok (v : pyval) : bool :=
  match v with
  | VNone | VEmptyList => true
  | VStr s => existsb (String.eqb s) cli_choices
  | VInt _ => false
  end.

(** Whether a command line made of the two flags alone is accepted,
    with both attributes set. *)
Definition accepts_both (f g : Args.flag) : bool :=
  match parse_args [flag_option f; flag_option g] with
  | Argparse.Namespace args => Args.on args f && Args.on args g
  | _ => false
  end.

(** Whether a command line made of the two flags alone is refused. *)
Definition rejects_both (f g : Args.flag) : bool :=
  match parse_args [flag_option f; flag_option g] with
  | Argparse.Error _ => true
  | _ => false
  end.

(** What the consuming loop of [parse_args] maintains: a flag that is
    on was seen, two distinct flags seen are not in one group, and
    [args.cli] is one of the choices when it is a string. *)
Definition parse_inv (seen : list action) (args : Args.t) : Prop :=
  (forall f, Args.on args f = true -> store_true f ∈ seen)
  /\ (forall f g grp, store_true f ∈ seen -> store_true g ∈ seen ->
                      group_of f = Some grp -> group_of g = Some grp -> f = g)
  /\ cli_value_ok (Args.value args Args.cli) = true.

(** An event that, when it is a call, was made in the environment [env]. *)
Definition sees (env : gmap string string) (e : event) : Prop :=
  match e with
  | Call _ env' => env' = env
  | _ => True
  end.

(** [os.environ] after the [--cli] selector was applied to [env]. *)
Definition forced_environ (args : Args.t) (env : gmap string string)
  : gmap string string :=
  match Args.value args Args.cli with
  | VStr cli => if PyText.nonempty cli then <[ CLI_PROVIDER_ENV := cli ]> env else env
  | _ => env
  end.

(** The state machine of the specification: the handlers of terminal
    operations a run reaches.  None is reached when the configuration
    is displayed, when no spec is given, or when the spec is not found. *)
Definition dispatched (w : answers) (args : Args.t) : list callee :=
  if Args.on args Args.info then []
  else if negb (is_true (Args.value args Args.spec)) then []
  else match spec_dir_of w (Args.value args Args.spec) with
       | None => []
       | Some _ => [selected_handler args]
       end.

(** ** Further properties: what they are stated with *)

(** The variable that overrides the path of a CLI, and the name
    searched on the path. *)
Definition path_env_of (cli_type : CLIType.t) : string :=
  match cli_type with
  | CLIType.CLAUDE => CLAUDE_CLI_PATH_ENV
  | CLIType.OPENCODE => OPENCODE_CLI_PATH_ENV
  end.

Definition binary_of (cli_type : CLIType.t) : string :=
  match cli_type with
  | CLIType.CLAUDE => "claude"
  | CLIType.OPENCODE => "opencode"
  end.

(** The settings files on which the sub-provider step makes no [.get]
    call on a value that is not a dict. *)
Definition provider_settings_tolerated (settings : settings_file) : bool :=
  match settings with
  | Missing | Unreadable _ | Malformed _ => true
  | Document (JDict bindings) =>
      match assoc "opencode" bindings with
      | None | Some (JDict _) => true
      | Some _ => false
      end
  | Undecodable _ | Document _ => false
  end.

(** The kind of value each valued option stores. *)
Definition value_typed (o : Args.opt) (v : pyval) : bool :=
  match v, o with
  | (VNone | VEmptyList), _ => true
  | VInt _, Args.max_iterations => true
  | VInt _, _ => false
  | VStr _, Args.max_iterations => false
  | VStr s, Args.cli => existsb (String.eqb s) cli_choices
  | VStr _, _ => true
  end.

(** The flags and the option that [_run_cli] never reads. *)
Definition never_read_flags : list Args.flag :=
  [ Args.list; Args.list_worktrees; Args.cleanup_worktrees;
    Args.batch_status; Args.batch_cleanup; Args.no_dry_run ].

(** How [_run_cli] ends after the selected handler returned. *)
Definition command_status (w : answers) (args : Args.t) : status :=
  match selected_handler args with
  | handle_merge_command => if merge_succeeds w then Returned else SystemExit 1
  | handle_create_pr_command => if create_pr_succeeds w then Returned else SystemExit 1
  | _ => Returned
  end.

(** The calls of a whole run, in order. *)
Definition expected_calls (w : answers) (args : Args.t) : list callee :=
  get_project_dir ::
  (if Args.on args Args.info then [print_cli_and_auth_info]
   else if negb (is_true (Args.value args Args.spec)) then [print_banner]
   else find_spec ::
        match spec_dir_of w (Args.value args Args.spec) with
        | None => [print_banner; print_specs_list]
        | Some _ => [set_context; selected_handler args]
        end).

(** How a whole run ends. *)
Definition expected_status (w : answers) (args : Args.t) : status :=
  if Args.on args Args.info then Returned
  else if negb (is_true (Args.value args Args.spec)) then SystemExit 1
  else match spec_dir_of w (Args.value args Args.spec) with
       | None => SystemExit 1
       | Some _ => command_status w args
       end.

(** The names the package resolves. *)
Definition resolvable : list string :=
  [ "run_autonomous_agent"; "run_followup_planner"; "WorkspaceManager";
    "WorktreeManager"; "ProgressTracker"; "create_client"; "ClaudeClient";
    "CLIType"; "CLIProvider"; "CLIManager"; "get_cli_manager"; "print_cli_info" ].

(** * Properties *)

(** ** Text *)

Section TextFacts.

Lemma strip_all_space s : PyText.all_space s = true -> PyText.strip s = EmptyString.
Proof.
  intros H. unfold PyText.strip.
  assert (PyText.lstrip s = EmptyString) as ->; [|reflexivity].
  induction s as [|c r IH]; simpl in *; [reflexivity|].
  apply andb_prop in H as [Hc Hr]. rewrite Hc. auto.
Qed.

Lemma normalize_blank s :
  PyText.all_space s = true -> PyText.lower (PyText.strip s) = EmptyString.
Proof. intros H. now rewrite strip_all_space. Qed.

Lemma nonempty_false s : PyText.nonempty s = false -> s = EmptyString.
Proof. destruct s; [reflexivity | discriminate]. Qed.

Lemma nonempty_true s : s <> EmptyString -> PyText.nonempty s = true.
Proof. destruct s; [congruence | reflexivity]. Qed.

Lemma app_cons c s t : String c s +:+ t = String c (s +:+ t).
Proof. reflexivity. Qed.

Lemma prefix_app s t : String.prefix s (s +:+ t) = true.
Proof.
  induction s as [|c r IH].
  - now destruct t.
  - rewrite app_cons. simpl. destruct (ascii_dec c c); [exact IH | congruence].
Qed.

Lemma prefix_refl s : String.prefix s s = true.
Proof.
  induction s as [|c r IH]; [reflexivity|].
  simpl. destruct (ascii_dec c c); [exact IH | congruence].
Qed.

Lemma contains_prefix needle hay :
  String.prefix needle hay = true -> PyText.contains needle hay = true.
Proof. intros H. destruct hay; simpl in *; rewrite H; reflexivity. Qed.

Lemma contains_app_r needle pre hay :
  PyText.contains needle hay = true -> PyText.contains needle (pre +:+ hay) = true.
Proof.
  intros H. induction pre as [|c r IH]; [exact H|].
  rewrite app_cons. simpl. rewrite IH. apply orb_true_r.
Qed.

(** A text built around [v] contains [v]. *)
Lemma contains_middle pre v post : PyText.contains v (pre +:+ v +:+ post) = true.
Proof. apply contains_app_r, contains_prefix, prefix_app. Qed.

Lemma is_space_lower_char c : PyText.is_space (PyText.lower_char c) = PyText.is_space c.
Proof. destruct c as [[] [] [] [] [] [] [] []]; reflexivity. Qed.

Lemma no_space_lower s : PyText.no_space (PyText.lower s) = PyText.no_space s.
Proof.
  induction s as [|c r IH]; [reflexivity|].
  simpl. now rewrite is_space_lower_char, IH.
Qed.

Lemma rstrip_no_space s : PyText.no_space s = true -> PyText.rstrip s = s.
Proof.
  induction s as [|c r IH]; [reflexivity|].
  simpl. intros [Hc Hr]%andb_prop. rewrite (IH Hr).
  apply negb_true_iff in Hc. rewrite Hc. now destruct r.
Qed.

Lemma strip_no_space s : PyText.no_space s = true -> PyText.strip s = s.
Proof.
  intros H. unfold PyText.strip.
  assert (PyText.lstrip s = s) as ->; [|now apply rstrip_no_space].
  destruct s as [|c r]; [reflexivity|].
  simpl in *. apply andb_prop in H as [Hc _].
  apply negb_true_iff in Hc. now rewrite Hc.
Qed.

(** A text that equals a literal without white space up to case is
    left as it is by [strip]: matching up to case is a special case of
    matching after normalization. *)
Lemma case_insensitive_match_normalizes s literal :
  PyText.no_space literal = true ->
  PyText.lower s = literal ->
  PyText.lower (PyText.strip s) = literal.
Proof.
  intros Hlit Hs. rewrite strip_no_space; [exact Hs|].
  now rewrite <- no_space_lower, Hs.
Qed.

End TextFacts.

(** ** Computations *)

Lemma bind_ret_l {A B} (a : A) (k : A -> run B) : bind (ret a) k = k a.
Proof. unfold bind, ret. now destruct (k a). Qed.

Lemma bind_ret_r {A} (m : run A) : bind m ret = m.
Proof.
  destruct m as [l [a|e]]; simpl; [|reflexivity].
  now rewrite app_nil_r.
Qed.

(** ** Provider type resolution: [CLIManager._detect_cli] *)

Section DetectCli.

Import CLIManager.

Implicit Types (environ : gmap string string) (settings : settings_file).

Lemma environ_get_unset environ name :
  environ !! name = None -> environ_get environ name = EmptyString.
Proof. unfold environ_get. now intros ->. Qed.

Lemma environ_get_set environ name v :
  environ !! name = Some v -> environ_get environ name = v.
Proof. unfold environ_get. now intros ->. Qed.

Lemma environ_get_delete environ name :
  environ_get (delete name environ) name = EmptyString.
Proof. apply environ_get_unset, lookup_delete_eq. Qed.

(** With no usable override, resolution is the settings step. *)
Lemma detect_cli_no_override environ settings :
  PyText.lower (PyText.strip (environ_get environ CLI_PROVIDER_ENV)) = EmptyString ->
  _detect_cli environ settings = detect_after_env settings.
Proof. intros H. unfold _detect_cli. now rewrite H. Qed.

Lemma detect_cli_unset environ settings :
  _detect_cli (delete CLI_PROVIDER_ENV environ) settings = detect_after_env settings.
Proof. apply detect_cli_no_override. now rewrite environ_get_delete. Qed.

(** A recognised override decides, whatever the settings file holds. *)
Lemma detect_cli_override environ settings (c : CLIType.t) :
  PyText.lower (PyText.strip (environ_get environ CLI_PROVIDER_ENV)) = CLIType.value c ->
  _detect_cli environ settings =
    ([(INFO, "CLI from environment: " +:+ CLIType.value c)], Returns c).
Proof. intros H. unfold _detect_cli. rewrite H. now destruct c. Qed.

(** An override that names no CLI: one warning, then the settings step. *)
Lemma detect_cli_unrecognised environ settings :
  let env_cli := PyText.lower (PyText.strip (environ_get environ CLI_PROVIDER_ENV)) in
  env_cli <> EmptyString ->
  env_cli ∉ map CLIType.value CLIType.members ->
  _detect_cli environ settings =
    (log WARNING (invalid_cli_provider_warning env_cli) ;; detect_after_env settings).
Proof.
  intros env_cli Hne Hnot. unfold _detect_cli. fold env_cli.
  rewrite (nonempty_true _ Hne).
  destruct (String.eqb_spec env_cli (CLIType.value CLIType.OPENCODE)) as [E|_].
  { exfalso. apply Hnot. rewrite E. simpl. set_solver. }
  destruct (String.eqb_spec env_cli (CLIType.value CLIType.CLAUDE)) as [E|_].
  { exfalso. apply Hnot. rewrite E. simpl. set_solver. }
  reflexivity.
Qed.

(** The settings step logs no warning about the override. *)
Lemma settings_step_silent_on_override settings env_cli :
  (WARNING, invalid_cli_provider_warning env_cli) ∉ logs (detect_after_env settings).
Proof.
  unfold detect_after_env, detect_in_settings, logs.
  destruct settings as [| why | why | why | doc]; simpl;
    try (rewrite ?elem_of_cons, elem_of_nil; intros H; intuition discriminate).
  destruct doc; simpl;
    try (rewrite ?elem_of_cons, elem_of_nil; intros H; intuition discriminate).
  destruct (default JNone (assoc "cli" bindings)) eqn:E; simpl.
  all: repeat (match goal with |- context [if ?b then _ else _] => destruct b end; simpl).
  all: rewrite ?elem_of_cons, elem_of_nil; intros H.
  all: repeat match goal with H : _ \/ _ |- _ => destruct H as [H|H] end; try discriminate; try tauto.
  all: injection H as H; unfold invalid_cli_provider_warning in H; rewrite ?app_cons in H; discriminate.
Qed.


Lemma detect_after_env_returns settings :
  settings_tolerated settings = true ->
  exists c, result (detect_after_env settings) = Returns c.
Proof.
  unfold detect_after_env, detect_in_settings, result.
  destruct settings as [| why | why | why | doc]; simpl; try discriminate; eauto.
  destruct doc; simpl; try discriminate. intros _.
  destruct (default JNone (assoc "cli" bindings)); simpl.
  all: repeat (match goal with |- context [if ?b then _ else _] => destruct b end; simpl).
  all: eauto.
Qed.


(** With no override, a settings object whose [cli] string normalizes
    to a CLI literal decides. *)
Lemma detect_cli_from_settings environ bindings s (c : CLIType.t) :
  environ !! CLI_PROVIDER_ENV = None ->
  assoc "cli" bindings = Some (JStr s) ->
  PyText.lower (PyText.strip s) = CLIType.value c ->
  result (_detect_cli environ (Document (JDict bindings))) = Returns c.
Proof.
  intros Hnone Hcli Hs.
  rewrite detect_cli_no_override by now rewrite environ_get_unset.
  unfold detect_after_env, detect_in_settings. simpl. rewrite Hcli. simpl.
  assert (PyText.nonempty s = true) as ->.
  { destruct s; [now destruct c | reflexivity]. }
  simpl. rewrite Hs. now destruct c.
Qed.

(** The same when the string names the literal up to case only. *)
Corollary detect_cli_from_settings_up_to_case environ bindings s (c : CLIType.t) :
  environ !! CLI_PROVIDER_ENV = None ->
  assoc "cli" bindings = Some (JStr s) ->
  PyText.lower s = CLIType.value c ->
  result (_detect_cli environ (Document (JDict bindings))) = Returns c.
Proof.
  intros Hnone Hcli Hs.
  apply (detect_cli_from_settings environ bindings s c Hnone Hcli).
  apply case_insensitive_match_normalizes; [now destruct c | exact Hs].
Qed.

(** C2 (defect in the code): [_detect_cli] is not total.  With no
    override in the environment and a settings file that holds the JSON
    array [[]] (valid JSON, not an object), the call [settings.get]
    raises [AttributeError]; the [except] clause names only
    [JSONDecodeError], [IOError] and [OSError], so the exception leaves
    the function and no CLI type is returned.  A file that is not UTF-8
    leaves it the same way, with [UnicodeDecodeError]. *)
Theorem C2_detect_cli_raises_on_json_array :
  _detect_cli ∅ (Document (JList [])) =
    ([], Raises (mk_exn AttributeError "'list' object has no attribute 'get'"))
  /\ result (_detect_cli ∅ (Undecodable "invalid start byte")) =
       Raises (mk_exn UnicodeDecodeError "invalid start byte").
Proof. split; reflexivity. Qed.



(** C6, as stated, fails: the override [" "] matches no CLI literal and
    is ignored, yet no warning is logged. *)
Lemma C6_blank_override_gets_no_warning :
  let environ : gmap string string := {[ CLI_PROVIDER_ENV := " " ]} in
  environ !! CLI_PROVIDER_ENV = Some " "
  /\ (PyText.lower (PyText.strip " ") ∉ map CLIType.value CLIType.members)
  /\ logged WARNING (_detect_cli environ Missing) = []
  /\ result (_detect_cli environ Missing) = Returns CLIType.CLAUDE.
Proof.
  split; [reflexivity | split; [| split; reflexivity]].
  intros H. apply list_elem_of_In in H. vm_compute in H. intuition discriminate.
Qed.

(** C6 (amended): the precedence of [_detect_cli] is environment
    override, settings file, hard default.
    (1) An override whose trimmed, lower-cased value is not empty and is
        no CLI literal is ignored with one warning: the run is that
        warning followed by the run without the override.
    (2) An override whose trimmed value is empty is ignored without a
        warning: the run is the run without the override.
    (3) With no override and a settings object whose [cli] field names
        [opencode] up to case and surrounding white space, the result
        is [OPENCODE].
    (4) With no override and no settings file, the result is [CLAUDE]. *)
Theorem C6_precedence_env_settings_default :
  (forall environ settings v,
      environ !! CLI_PROVIDER_ENV = Some v ->
      PyText.lower (PyText.strip v) <> EmptyString ->
      PyText.lower (PyText.strip v) ∉ map CLIType.value CLIType.members ->
      _detect_cli environ settings =
        (log WARNING (invalid_cli_provider_warning (PyText.lower (PyText.strip v))) ;;
         _detect_cli (delete CLI_PROVIDER_ENV environ) settings))
  /\ (forall environ settings v,
      environ !! CLI_PROVIDER_ENV = Some v ->
      PyText.lower (PyText.strip v) = EmptyString ->
      _detect_cli environ settings = _detect_cli (delete CLI_PROVIDER_ENV environ) settings)
  /\ (forall environ bindings s,
      environ !! CLI_PROVIDER_ENV = None ->
      assoc "cli" bindings = Some (JStr s) ->
      PyText.lower (PyText.strip s) = CLIType.value CLIType.OPENCODE ->
      result (_detect_cli environ (Document (JDict bindings))) = Returns CLIType.OPENCODE)
  /\ (forall environ,
      environ !! CLI_PROVIDER_ENV = None ->
      result (_detect_cli environ Missing) = Returns CLIType.CLAUDE).
Proof.
  repeat split.
  - intros environ settings v Hv Hne Hnot.
    rewrite detect_cli_unset.
    pose proof (detect_cli_unrecognised environ settings) as H.
    rewrite (environ_get_set _ _ _ Hv) in H. now apply H.
  - intros environ settings v Hv Hblank.
    rewrite detect_cli_unset. apply detect_cli_no_override.
    now rewrite (environ_get_set _ _ _ Hv).
  - intros environ bindings s Hnone Hcli Hs.
    now apply (detect_cli_from_settings environ bindings s CLIType.OPENCODE).
  - intros environ Hnone.
    rewrite detect_cli_no_override by now rewrite environ_get_unset.
    reflexivity.
Qed.

Lemma C6_precedence_env_settings_default_witness :
  let environ : gmap string string := {[ CLI_PROVIDER_ENV := "Cursor" ]} in
  let settings := Document (JDict [("cli", JStr " OpenCode ")]) in
  _detect_cli environ settings =
    ([(WARNING, invalid_cli_provider_warning "cursor");
      (INFO, "CLI from settings: opencode")], Returns CLIType.OPENCODE)
  /\ result (_detect_cli ∅ settings) = Returns CLIType.OPENCODE
  /\ result (_detect_cli ∅ Missing) = Returns CLIType.CLAUDE.
Proof.
  split; [| split].
  - refine (eq_trans (proj1 C6_precedence_env_settings_default _ _ "Cursor" _ _ _) _).
    + reflexivity.
    + discriminate.
    + intros H. apply list_elem_of_In in H. vm_compute in H. intuition discriminate.
    + reflexivity.
  - exact (proj1 (proj2 (proj2 C6_precedence_env_settings_default))
             ∅ [("cli", JStr " OpenCode ")] " OpenCode " eq_refl eq_refl eq_refl).
  - exact (proj2 (proj2 (proj2 C6_precedence_env_settings_default)) ∅ eq_refl).
Defined.

End DetectCli.

(** ** Sub-provider resolution: [CLIManager.get_opencode_provider] *)

Section OpencodeProvider.

Import CLIManager.

Implicit Types (environ : gmap string string) (settings : settings_file).

Lemma of_value_member (p : CLIProvider.t) :
  CLIProvider.of_value (CLIProvider.value p) = ret p.
Proof. now destruct p. Qed.

Lemma of_value_other s :
  s ∉ map CLIProvider.value CLIProvider.members ->
  CLIProvider.of_value s =
    raise (mk_exn ValueError (PyText.repr_str s +:+ " is not a valid CLIProvider")).
Proof.
  intros Hnot. unfold CLIProvider.of_value.
  assert (forall p, String.eqb (CLIProvider.value p) s = false) as Hp.
  { intros p. apply String.eqb_neq. intros <-. apply Hnot.
    apply list_elem_of_In, in_map. destruct p; simpl; tauto. }
  cbv [List.find CLIProvider.members]. now rewrite !Hp.
Qed.

(** A usable override decides alone: the settings file is not read. *)
Lemma provider_from_override environ settings :
  let provider_str := PyText.lower (PyText.strip (environ_get environ OPENCODE_PROVIDER_ENV)) in
  provider_str <> EmptyString ->
  get_opencode_provider environ settings =
    try_except (CLIProvider.of_value provider_str) [ValueError]
      (fun _ => log WARNING (invalid_provider_warning provider_str) ;;
                ret CLIProvider.CLAUDE).
Proof.
  intros provider_str Hne. unfold get_opencode_provider. fold provider_str.
  rewrite (nonempty_true _ Hne). cbn [negb]. rewrite bind_ret_l.
  now rewrite (nonempty_true _ Hne).
Qed.

(** C3 (defect in the code): [get_opencode_provider] can raise.  With
    no override in the environment, a settings document whose
    [opencode] field is a string, or whose top level is an array, makes
    a [.get] call raise [AttributeError], which the clause
    [except (json.JSONDecodeError, IOError)] does not catch. *)
Theorem C3_get_opencode_provider_raises_on_non_object :
  get_opencode_provider ∅ (Document (JDict [("opencode", JStr "openai")])) =
    ([], Raises (mk_exn AttributeError "'str' object has no attribute 'get'"))
  /\ get_opencode_provider ∅ (Document (JList [])) =
    ([], Raises (mk_exn AttributeError "'list' object has no attribute 'get'")).
Proof. split; reflexivity. Qed.

(** C7, as stated, fails: with the override [bogus] and a settings file
    that selects [openai], the result is the default [CLAUDE]; the
    settings field, which alone would give [OPENAI], is not consulted. *)
Lemma C7_unrecognised_override_skips_settings :
  let settings := Document (JDict [("opencode", JDict [("provider", JStr "openai")])]) in
  ("bogus" ∉ map CLIProvider.value CLIProvider.members)
  /\ result (get_opencode_provider {[ OPENCODE_PROVIDER_ENV := "bogus" ]} settings)
     = Returns CLIProvider.CLAUDE
  /\ result (get_opencode_provider ∅ settings) = Returns CLIProvider.OPENAI.
Proof.
  split; [| split; reflexivity].
  intros H. apply list_elem_of_In in H. vm_compute in H. intuition discriminate.
Qed.

(** C7 (amended): [get_opencode_provider] consults the environment
    override, then the settings field [opencode.provider], then the
    default, which is the first member of [CLIProvider].
    (1) An override whose trimmed, lower-cased value is a member's value
        selects that member.
    (2) With the override unset or blank, a settings object whose
        [opencode] object has a [provider] string that normalizes to a
        member's value selects that member.
    (3) With the override unset or blank and no settings file, the
        result is the default.
    (4) An override whose normalized value is not empty and is no
        member's value is not followed by the settings step: whatever
        the settings file holds, the run is one warning and the default. *)
Theorem C7_sub_provider_precedence :
  (forall environ settings p,
      PyText.lower (PyText.strip (environ_get environ OPENCODE_PROVIDER_ENV))
        = CLIProvider.value p ->
      get_opencode_provider environ settings = ([], Returns p))
  /\ (forall environ bindings config s p,
      PyText.lower (PyText.strip (environ_get environ OPENCODE_PROVIDER_ENV)) = EmptyString ->
      assoc "opencode" bindings = Some (JDict config) ->
      assoc "provider" config = Some (JStr s) ->
      PyText.lower (PyText.strip s) = CLIProvider.value p ->
      get_opencode_provider environ (Document (JDict bindings)) = ([], Returns p))
  /\ (forall environ,
      PyText.lower (PyText.strip (environ_get environ OPENCODE_PROVIDER_ENV)) = EmptyString ->
      get_opencode_provider environ Missing = ([], Returns CLIProvider.CLAUDE)
      /\ head CLIProvider.members = Some CLIProvider.CLAUDE)
  /\ (forall environ settings,
      let provider_str :=
        PyText.lower (PyText.strip (environ_get environ OPENCODE_PROVIDER_ENV)) in
      provider_str <> EmptyString ->
      provider_str ∉ map CLIProvider.value CLIProvider.members ->
      get_opencode_provider environ settings =
        ([(WARNING, invalid_provider_warning provider_str)], Returns CLIProvider.CLAUDE)).
Proof.
  split; [| split; [| split]].
  - intros environ settings p Hp.
    rewrite provider_from_override by (rewrite Hp; now destruct p).
    rewrite Hp, of_value_member. reflexivity.
  - intros environ bindings config s p Hblank Hcfg Hprov Hs.
    unfold get_opencode_provider. rewrite Hblank. simpl.
    rewrite Hcfg. simpl. rewrite Hprov. simpl.
    assert (PyText.nonempty s = true) as ->.
    { destruct s; [now destruct p | reflexivity]. }
    simpl. rewrite Hs.
    assert (PyText.nonempty (CLIProvider.value p) = true) as -> by now destruct p.
    simpl. rewrite of_value_member. reflexivity.
  - intros environ Hblank. unfold get_opencode_provider. rewrite Hblank.
    split; reflexivity.
  - intros environ settings provider_str Hne Hnot.
    rewrite provider_from_override by exact Hne. fold provider_str.
    rewrite of_value_other by exact Hnot. reflexivity.
Qed.

Lemma C7_sub_provider_precedence_witness :
  let settings := Document (JDict [("opencode", JDict [("provider", JStr " Google ")])]) in
  get_opencode_provider {[ OPENCODE_PROVIDER_ENV := "ZEN" ]} settings
    = ([], Returns CLIProvider.ZEN)
  /\ get_opencode_provider ∅ settings = ([], Returns CLIProvider.GOOGLE)
  /\ get_opencode_provider ∅ Missing = ([], Returns CLIProvider.CLAUDE)
  /\ get_opencode_provider {[ OPENCODE_PROVIDER_ENV := "bogus" ]} settings
     = ([(WARNING, invalid_provider_warning "bogus")], Returns CLIProvider.CLAUDE).
Proof.
  split; [| split; [| split]].
  - exact (proj1 C7_sub_provider_precedence
             {[ OPENCODE_PROVIDER_ENV := "ZEN" ]} _ CLIProvider.ZEN eq_refl).
  - exact (proj1 (proj2 C7_sub_provider_precedence)
             ∅ [("opencode", JDict [("provider", JStr " Google ")])]
             [("provider", JStr " Google ")] " Google " CLIProvider.GOOGLE
             eq_refl eq_refl eq_refl eq_refl).
  - exact (proj1 (proj1 (proj2 (proj2 C7_sub_provider_precedence)) ∅ eq_refl)).
  - refine (proj2 (proj2 (proj2 C7_sub_provider_precedence))
              {[ OPENCODE_PROVIDER_ENV := "bogus" ]} _ _ _).
    + discriminate.
    + intros H. apply list_elem_of_In in H. vm_compute in H. intuition discriminate.
Defined.

End OpencodeProvider.

(** ** Validation: [CLIManager.validate_cli] *)

Section ValidateCli.

Import CLIManager.

Implicit Types (environ : gmap string string).

Lemma result_bind {A B} (m : run A) (k : A -> run B) :
  result (bind m k) =
    match result m with
    | Returns a => result (k a)
    | Raises e => Raises e
    end.
Proof.
  destruct m as [l [a|e]]; simpl; [|reflexivity].
  now destruct (k a).
Qed.

(** Locating the executable never raises. *)
Lemma get_cli_path_returns cli_type environ exists_ which :
  exists located, result (get_cli_path cli_type environ exists_ which) = Returns located.
Proof.
  destruct cli_type; unfold get_cli_path, _find_claude_cli, _find_opencode_cli;
    rewrite result_bind.
  - destruct (truthy_str (environ !! CLAUDE_CLI_PATH_ENV)) as [env_path|];
      [destruct (exists_ env_path)|]; simpl;
      destruct (truthy_str (which "claude")); simpl; eauto.
  - destruct (truthy_str (environ !! OPENCODE_CLI_PATH_ENV)) as [env_path|];
      [destruct (exists_ env_path)|]; simpl;
      destruct (truthy_str (which "opencode")); simpl; eauto.
Qed.

(** The probe and the four [except] clauses, classified. *)
Lemma probe_classified cli_name cli_path (probe : outcome CompletedProcess) :
  result
    (try_
       (result <- ([], probe) ;;
        if (returncode result =? 0)%Z then
          let version_info :=
            PyText.str_or (PyText.strip (stdout result))
                          (PyText.strip (stderr result)) in
          log INFO (cli_name +:+ " CLI version: " +:+ version_info) ;;
          ret (true, cli_name +:+ " CLI is working (version: "
                     +:+ version_info +:+ ")")
        else
          let error_msg :=
            PyText.str_or (PyText.strip (stderr result))
              (PyText.str_or (PyText.strip (stdout result)) "Unknown error") in
          log WARNING (cli_name +:+ " CLI --version failed: " +:+ error_msg) ;;
          ret (false, cli_name +:+ " CLI exists but --version command failed: "
                      +:+ error_msg))
       [ (TimeoutExpired, fun _ =>
            ret (false, cli_name +:+ " CLI timed out when checking version"));
         (FileNotFoundError, fun _ =>
            ret (false, cli_name +:+ " CLI executable not found: " +:+ cli_path));
         (PermissionError, fun _ =>
            ret (false, cli_name +:+ " CLI found but no execute permission: "
                        +:+ cli_path));
         (Exception, fun e =>
            log ERROR ("Error validating " +:+ cli_name +:+ " CLI") ;;
            ret (false, "Failed to validate " +:+ cli_name +:+ " CLI: "
                        +:+ exn_str e)) ])
  = Returns (probe_verdict cli_name cli_path probe).
Proof.
  destruct probe as [r | [cls text]]; simpl.
  - unfold reported_text. now destruct (returncode r =? 0)%Z.
  - now destruct cls.
Qed.


End ValidateCli.

(** ** The argument layer: what every accepted command line satisfies *)

Section ParseArgs.

Import Argparse.

(** An invariant of the consuming loop holds of the namespace returned. *)
Lemma consume_invariant (Inv : list action -> Args.t -> Prop) :
  (forall seen args f,
      Inv seen args -> conflict seen (store_true f) = None ->
      Inv (store_true f :: seen) (Args.set_flag f args)) ->
  (forall seen args dest s v,
      Inv seen args -> get_value dest s = inl v ->
      Inv seen (Args.set_value dest v args)) ->
  forall n tokens seen extras args res,
    length tokens <= n ->
    Inv seen args ->
    consume tokens seen extras args = Namespace res ->
    exists seen', Inv seen' res.
Proof.
  intros Hflag Hvalue n.
  induction n as [|n IH]; intros tokens seen extras args res Hlen Hinv Hres.
  - destruct tokens; [|simpl in Hlen; lia].
    simpl in Hres. destruct extras; [|discriminate].
    simplify_eq. eauto.
  - destruct tokens as [|[s t] rest].
    + simpl in Hres. destruct extras; [|discriminate].
      simplify_eq. eauto.
    + simpl in Hlen.
      destruct t as [| | name act explicit_arg |]; cbn [consume] in Hres;
        try (eapply IH; [| exact Hinv | exact Hres]; lia).
      destruct act as [| f | dest].
      * destruct explicit_arg as [e|]; [|discriminate].
        unfold ignored_explicit in Hres.
        repeat (match type of Hres with
                | (if ?b then _ else _) = _ => destruct b
                end); discriminate.
      * destruct explicit_arg as [e|]; [discriminate|].
        destruct (conflict seen (store_true f)) eqn:Hc; [discriminate|].
        eapply IH; [| apply Hflag; eassumption | exact Hres]. lia.
      * destruct explicit_arg as [e|].
        -- destruct (get_value dest e) eqn:Hg; [|discriminate].
           eapply IH; [| eapply Hvalue; eassumption | exact Hres]. lia.
        -- destruct rest as [|[arg_string [| | |]] rest']; try discriminate.
           destruct (get_value dest arg_string) eqn:Hg; [|discriminate].
           eapply IH; [| eapply Hvalue; eassumption | exact Hres].
           simpl in Hlen. lia.
Qed.


Lemma grouped_flag_registered f grp :
  group_of f = Some grp -> store_true f ∈ group_actions grp.
Proof.
  intros H. apply list_elem_of_In.
  destruct f; try discriminate H; injection H as <-; vm_compute; tauto.
Qed.

Lemma no_conflict seen f g grp :
  conflict seen (store_true f) = None ->
  group_of f = Some grp -> group_of g = Some grp ->
  store_true g ∈ seen -> f = g.
Proof.
  intros Hc Hf Hg Hseen. unfold conflict in Hc. rewrite Hf in Hc.
  destruct (decide (f = g)) as [|Hne]; [assumption|exfalso].
  pose proof (find_none _ _ Hc (store_true g)) as Hnone.
  simpl in Hnone.
  rewrite (bool_decide_eq_true_2 _ Hseen) in Hnone.
  rewrite bool_decide_eq_false_2 in Hnone by congruence.
  assert (In (store_true g) (group_actions grp)) as Hin
    by now apply list_elem_of_In, grouped_flag_registered.
  specialize (Hnone Hin). discriminate.
Qed.

Lemma get_value_cli_ok s v :
  get_value Args.cli s = inl v -> cli_value_ok v = true.
Proof.
  unfold get_value. destruct (String.eqb s "--"); [now intros [= <-]|].
  destruct (existsb (String.eqb s) cli_choices) eqn:E; [|discriminate].
  now intros [= <-].
Qed.

Lemma parse_inv_holds argv args :
  parse_args argv = Namespace args -> exists seen, parse_inv seen args.
Proof.
  unfold parse_args, Argparse.parse_args.
  destruct (classify argv) as [tokens|]; [|discriminate].
  intros H.
  eapply (consume_invariant parse_inv) with (n := length tokens); [| | | | exact H].
  - intros seen a f (Hon & Hgrp & Hcli) Hc. split; [|split].
    + intros g. simpl. destruct (decide (g = f)) as [->|]; [set_solver|].
      intros Hg. apply elem_of_cons. right. now apply Hon.
    + intros g h grp [Eg|Hg]%elem_of_cons [Eh|Hh]%elem_of_cons Gg Gh.
      * congruence.
      * injection Eg as ->. eapply no_conflict; eassumption.
      * injection Eh as ->. symmetry. eapply no_conflict; eassumption.
      * eapply Hgrp; eassumption.
    + exact Hcli.
  - intros seen a dest s v (Hon & Hgrp & Hcli) Hg. split; [|split].
    + exact Hon.
    + exact Hgrp.
    + simpl. destruct (decide (Args.cli = dest)) as [<-|]; [|exact Hcli].
      now apply get_value_cli_ok in Hg.
  - lia.
  - split; [|split]; [discriminate | | reflexivity].
    intros f g grp Hf. now apply elem_of_nil in Hf.
Qed.

End ParseArgs.

(** ** Dispatch: [_run_cli] *)

Lemma seq_run (a b : cmd) (p : process) :
  seq a b p = match a p with
              | (p', None) => b p'
              | ended => ended
              end.
Proof. reflexivity. Qed.

Ltac run_steps :=
  repeat (rewrite seq_run;
          cbn [when skip negb emit call end_with environ trace]).

Section DispatchFacts.

Implicit Types (p : process) (w : answers) (args : Args.t).

Lemma handlers_run_app t1 t2 : handlers_run (t1 ++ t2) = handlers_run t1 ++ handlers_run t2.
Proof.
  unfold handlers_run, calls. now rewrite omap_app, List.filter_app.
Qed.

Lemma calls_app t1 t2 : calls (t1 ++ t2) = calls t1 ++ calls t2.
Proof. unfold calls. apply omap_app. Qed.

(** The priority chain of [_run_cli] runs one handler: the one the
    priority table selects.  Every call is made in the environment the
    chain started in, which it leaves as it is. *)
Lemma run_command_selects w args p :
  exists added st,
    run_command w args p =
      ({| environ := environ p; trace := trace p ++ added |}, Some st)
    /\ handlers_run added = [selected_handler args]
    /\ Forall (sees (environ p)) added.
Proof.
  unfold run_command, selected_handler, priority_order.
  cbn [List.find fst snd].
  repeat match goal with
         | |- context [Args.on args ?f] => destruct (Args.on args f)
         end.
  all: try destruct (merge_succeeds w); try destruct (create_pr_succeeds w).
  all: cbv [seq when call emit end_with skip negb environ trace].
  all: rewrite <- ?app_assoc.
  all: eexists _, _; split; [reflexivity | split; [reflexivity | repeat constructor]].
Qed.

(** The selector step: it changes [CLI_PROVIDER] and nothing else, and
    it makes no call. *)
Lemma force_cli_runs args p :
  cli_value_ok (Args.value args Args.cli) = true ->
  exists added,
    force_cli args p =
      ({| environ := forced_environ args (environ p); trace := trace p ++ added |}, None)
    /\ calls added = [].
Proof.
  unfold force_cli, forced_environ. intros Hok.
  destruct (Args.value args Args.cli) as [| cli | z |]; try discriminate Hok.
  - exists []. rewrite app_nil_r. now destruct p.
  - destruct (PyText.nonempty cli).
    + eexists [_]. split; reflexivity.
    + exists []. rewrite app_nil_r. now destruct p.
  - exists []. rewrite app_nil_r. now destruct p.
Qed.

(** The shape of every run of [_run_cli] after parsing: the project
    directory is asked for in the environment the process started
    with; every later call is made in the environment the selector
    left; the terminal handlers that run are those of [dispatched]. *)
Lemma run_parsed_shape w args p :
  cli_value_ok (Args.value args Args.cli) = true ->
  exists before after st,
    run_parsed w args p =
      ({| environ := forced_environ args (environ p);
          trace := trace p ++ before ++ after |}, Some st)
    /\ calls before = [get_project_dir]
    /\ Forall (sees (environ p)) before
    /\ Forall (sees (forced_environ args (environ p))) after
    /\ handlers_run after = dispatched w args
    /\ (Args.on args Args.info = true -> st = Returned /\ calls after = [print_cli_and_auth_info])
    /\ (Args.on args Args.info = false -> is_true (Args.value args Args.spec) = false ->
        st = SystemExit 1 /\ calls after = [print_banner]
        /\ Print (nl +:+ "Error: --spec is required") ∈ after).
Proof.
  intros Hok.
  set (before := [Debug "Starting Auto-Build Framework"; Debug "Arguments parsed";
                  Call get_project_dir (environ p);
                  Debug ("Using project directory: " +:+ project_dir_is w)]).
  set (env' := forced_environ args (environ p)).
  unfold run_parsed, dispatched. run_steps.
  match goal with
  | |- context [force_cli args ?q] =>
      destruct (force_cli_runs args q Hok) as (forced & -> & Hforced)
  end.
  cbn [environ trace]. fold env'.
  assert (Forall (sees env') forced) as Hsf.
  { clear -Hforced.
    induction forced as [|[] ?]; try discriminate; constructor; auto; exact I. }
  assert (handlers_run forced = []) as Hhf by (unfold handlers_run; now rewrite Hforced).
  assert (Forall (sees (environ p)) before) as Hsb by (repeat constructor).
  destruct (Args.on args Args.info) eqn:Hinfo.
  { run_steps.
    exists before, (forced ++ [Call print_cli_and_auth_info env']), Returned.
    split; [f_equal; f_equal; rewrite <- !app_assoc; reflexivity|].
    split; [reflexivity|]. split; [exact Hsb|].
    split; [apply Forall_app; split; [exact Hsf | repeat constructor]|].
    split; [rewrite handlers_run_app, Hhf; reflexivity|].
    split; [|discriminate].
    intros _. split; [reflexivity|]. rewrite calls_app, Hforced. reflexivity. }
  destruct (is_true (Args.value args Args.spec)) eqn:Hspec.
  2:{ unfold spec_required. run_steps.
      eexists before, (forced ++ Call print_banner env' :: _), (SystemExit 1).
      split; [f_equal; f_equal; rewrite <- !app_assoc; reflexivity|].
      split; [reflexivity|]. split; [exact Hsb|].
      split; [apply Forall_app; split; [exact Hsf | repeat constructor]|].
      split; [rewrite handlers_run_app, Hhf; reflexivity|].
      split; [discriminate|].
      intros _ _. split; [reflexivity|].
      split; [rewrite calls_app, Hforced; reflexivity|].
      apply elem_of_app. right. apply list_elem_of_In. simpl. tauto. }
  run_steps.
  destruct (spec_dir_of w (Args.value args Args.spec)) as [d|] eqn:Hdir.
  2:{ unfold spec_not_found. run_steps.
      eexists before, (forced ++ Debug "Finding spec" :: Call find_spec env' :: _),
        (SystemExit 1).
      split; [f_equal; f_equal; rewrite <- !app_assoc; reflexivity|].
      split; [reflexivity|]. split; [exact Hsb|].
      split; [apply Forall_app; split; [exact Hsf | repeat constructor]|].
      split; [rewrite handlers_run_app, Hhf; reflexivity|].
      split; discriminate. }
  run_steps.
  match goal with
  | |- context [run_command w args ?q] =>
      destruct (run_command_selects w args q) as (added & st & -> & Hsel & Hsees)
  end.
  cbn [environ trace] in *.
  exists before,
    (forced ++ Debug "Finding spec" :: Call find_spec env'
            :: Debug "Spec found" :: Call set_context env' :: added), st.
  split; [f_equal; f_equal; rewrite <- !app_assoc; reflexivity|].
  split; [reflexivity|]. split; [exact Hsb|].
  split; [apply Forall_app; split; [exact Hsf|]; repeat (constructor; [exact I || reflexivity|]);
          exact Hsees|].
  split; [|split; discriminate].
  rewrite handlers_run_app, Hhf.
  change (handlers_run added = [selected_handler args]). exact Hsel.
Qed.

End DispatchFacts.

(** ** The command layer: listing, priority, exclusive groups, the selector *)

Section CommandLayer.

Implicit Types (p : process) (w : answers) (args : Args.t).

(** What holds of C1: without a spec and without [--info], whatever the
    other flags are, the run prints the usage text and exits with code
    1, and no terminal handler runs; with [--info], the run displays
    the configuration and returns, and [find_spec] is not called. *)
Lemma spec_required_or_info w args p :
  cli_value_ok (Args.value args Args.cli) = true ->
  exists added st,
    run_parsed w args p =
      ({| environ := forced_environ args (environ p); trace := trace p ++ added |}, Some st)
    /\ (Args.on args Args.info = true ->
        st = Returned /\ calls added = [get_project_dir; print_cli_and_auth_info])
    /\ (Args.on args Args.info = false -> is_true (Args.value args Args.spec) = false ->
        st = SystemExit 1 /\ calls added = [get_project_dir; print_banner]
        /\ Print (nl +:+ "Error: --spec is required") ∈ added).
Proof.
  intros Hok.
  destruct (run_parsed_shape w args p Hok)
    as (before & after & st & Hrun & Hb & _ & _ & _ & Hinfo & Hspec).
  exists (before ++ after), st. split; [exact Hrun|]. split.
  - intros Hi. destruct (Hinfo Hi) as [-> Hc]. split; [reflexivity|].
    now rewrite calls_app, Hb, Hc.
  - intros Hi Hs. destruct (Hspec Hi Hs) as (-> & Hc & Hin). split; [reflexivity|].
    split; [now rewrite calls_app, Hb, Hc|].
    apply elem_of_app. now right.
Qed.

(** C1 (defect in the code): [--list] is not a pre-spec operation of
    [_run_cli].  The command line [--list], with no spec, is answered
    with the usage error and exit code 1; [print_specs_list] is never
    called.  The usage text printed by that very branch advertises
    [--list], and the comment above it reads [Require --spec if not
    listing and not displaying info]. *)
Theorem C1_list_without_spec_exits_1 w p :
  exists added,
    _run_cli w ["--list"] p =
      ({| environ := environ p; trace := trace p ++ added |}, Some (SystemExit 1))
    /\ calls added = [get_project_dir; print_banner]
    /\ Print "  python auto-claude/run.py --list           # See all specs" ∈ added.
Proof.
  eexists. split; [|split].
  - unfold _run_cli.
    change (parse_args ["--list"])
      with (Argparse.Namespace (Args.set_flag Args.list Args.defaults)).
    unfold run_parsed, force_cli, spec_required.
    cbn [Args.value Args.on Args.set_flag Args.defaults is_true negb].
    change (if decide (Args.info = Args.list) then true else false) with false.
    run_steps. f_equal. f_equal. rewrite <- !app_assoc. reflexivity.
  - reflexivity.
  - apply list_elem_of_In. simpl. tauto.
Qed.

(** Once a spec is resolved, the terminal handlers a run adds to the
    trace are the selected one, alone. *)
Lemma resolved_spec_runs_selected w args p d :
  cli_value_ok (Args.value args Args.cli) = true ->
  Args.on args Args.info = false ->
  is_true (Args.value args Args.spec) = true ->
  spec_dir_of w (Args.value args Args.spec) = Some d ->
  handlers_run (trace (fst (run_parsed w args p)))
    = handlers_run (trace p) ++ [selected_handler args].
Proof.
  intros Hok Hinfo Hspec Hdir.
  destruct (run_parsed_shape w args p Hok)
    as (before & after & st & Hrun & Hb & _ & _ & Hh & _).
  rewrite Hrun. cbn [fst trace].
  rewrite !handlers_run_app, Hh.
  unfold dispatched. rewrite Hinfo, Hspec, Hdir. cbn [negb].
  unfold handlers_run at 2. rewrite Hb. reflexivity.
Qed.

(** C4: once a spec is resolved, exactly one handler of a terminal
    operation runs, and it is the handler of the highest-priority flag
    that is set in the order merge-preview, merge, review, discard,
    create-pr, qa-status, review-status, qa, followup, the default
    build when none is set.  With merge and review both set, and
    merge-preview not, it is the merge handler. *)
Theorem C4_one_handler_by_priority w args p d :
  cli_value_ok (Args.value args Args.cli) = true ->
  Args.on args Args.info = false ->
  is_true (Args.value args Args.spec) = true ->
  spec_dir_of w (Args.value args Args.spec) = Some d ->
  handlers_run (trace (fst (run_parsed w args p)))
    = handlers_run (trace p) ++ [selected_handler args]
  /\ (Args.on args Args.merge_preview = false ->
      Args.on args Args.merge = true ->
      Args.on args Args.review = true ->
      selected_handler args = handle_merge_command).
Proof.
  intros Hok Hinfo Hspec Hdir. split.
  - now apply (resolved_spec_runs_selected w args p d).
  - intros Hmp Hm _. unfold selected_handler, priority_order.
    cbn [List.find fst snd]. now rewrite Hmp, Hm.
Qed.

Lemma C4_one_handler_by_priority_witness :
  let w := {| project_dir_is := "/work"; spec_dir_of := fun _ => Some "001-initial-app";
              merge_preview_json := "{}"; merge_succeeds := true;
              create_pr_succeeds := true |} in
  let args := Args.set_flag Args.review
                (Args.set_flag Args.merge
                   (Args.set_value Args.spec (VStr "001") Args.defaults)) in
  let p := {| environ := ∅; trace := [] |} in
  handlers_run (trace (fst (run_parsed w args p))) = [handle_merge_command]
  /\ Args.on args Args.merge = true /\ Args.on args Args.review = true.
Proof.
  split; [|split; reflexivity].
  exact (proj1 (C4_one_handler_by_priority
                  {| project_dir_is := "/work"; spec_dir_of := fun _ => Some "001-initial-app";
                     merge_preview_json := "{}"; merge_succeeds := true;
                     create_pr_succeeds := true |}
                  (Args.set_flag Args.review
                     (Args.set_flag Args.merge
                        (Args.set_value Args.spec (VStr "001") Args.defaults)))
                  {| environ := ∅; trace := [] |} "001-initial-app"
                  eq_refl eq_refl eq_refl eq_refl)).
Defined.

(** Through the argument layer: the same for every accepted command line. *)
Corollary run_cli_one_handler w argv args p d :
  parse_args argv = Argparse.Namespace args ->
  Args.on args Args.info = false ->
  is_true (Args.value args Args.spec) = true ->
  spec_dir_of w (Args.value args Args.spec) = Some d ->
  handlers_run (trace (fst (_run_cli w argv p)))
    = handlers_run (trace p) ++ [selected_handler args].
Proof.
  intros Hparse Hinfo Hspec Hdir. unfold _run_cli. rewrite Hparse.
  destruct (parse_inv_holds argv args Hparse) as (seen & _ & _ & Hok).
  now apply (resolved_spec_runs_selected w args p d).
Qed.

(** C8, as stated, fails: [--merge --qa] sets two terminal-operation
    flags and the argument layer accepts it. *)
Lemma C8_merge_with_qa_is_accepted :
  parse_args ["--merge"; "--qa"]
    = Argparse.Namespace (Args.set_flag Args.qa (Args.set_flag Args.merge Args.defaults))
  /\ Args.merge ∈ terminal_flags /\ Args.qa ∈ terminal_flags
  /\ Args.on (Args.set_flag Args.qa (Args.set_flag Args.merge Args.defaults)) Args.merge = true
  /\ Args.on (Args.set_flag Args.qa (Args.set_flag Args.merge Args.defaults)) Args.qa = true.
Proof.
  split; [reflexivity|].
  split; [apply list_elem_of_In; simpl; tauto|].
  split; [apply list_elem_of_In; simpl; tauto|].
  split; reflexivity.
Qed.

(** C8 (amended): the mutually exclusive group of terminal operations
    holds merge, review, discard and create-pr only.
    (1) No accepted command line sets two distinct flags of that group.
    (2) Of the nine terminal-operation flags, those four are the ones in
        the group.
    (3) For two distinct terminal-operation flags given alone: the
        command line is refused when both are in the group, and is
        accepted with both set otherwise. *)
Theorem C8_build_group_is_exclusive :
  (forall argv args f g,
      parse_args argv = Argparse.Namespace args ->
      group_of f = Some build_group -> group_of g = Some build_group -> f <> g ->
      Args.on args f && Args.on args g = false)
  /\ List.filter (fun f => bool_decide (group_of f = Some build_group)) terminal_flags
     = [Args.merge; Args.review; Args.discard; Args.create_pr]
  /\ (forall f g, f ∈ terminal_flags -> g ∈ terminal_flags -> f <> g ->
      if bool_decide (group_of f = Some build_group /\ group_of g = Some build_group)
      then rejects_both f g = true
      else accepts_both f g = true).
Proof.
  split; [|split].
  - intros argv args f g Hparse Hf Hg Hne.
    destruct (parse_inv_holds argv args Hparse) as (seen & Hon & Hgrp & _).
    destruct (Args.on args f) eqn:Ef; [|reflexivity].
    destruct (Args.on args g) eqn:Eg; [|reflexivity].
    exfalso. apply Hne. eapply Hgrp; eauto.
  - reflexivity.
  - intros f g Hf Hg Hne.
    apply list_elem_of_In in Hf, Hg. cbn in Hf, Hg.
    repeat (destruct Hf as [<- | Hf]; [| try contradiction]);
      repeat (destruct Hg as [<- | Hg]; [| try contradiction]);
      try congruence; vm_compute; reflexivity.
Qed.

Lemma C8_build_group_is_exclusive_witness :
  parse_args ["--spec"; "001"; "--discard"]
    = Argparse.Namespace
        (Args.set_flag Args.discard (Args.set_value Args.spec (VStr "001") Args.defaults))
  /\ Args.on (Args.set_flag Args.discard
                (Args.set_value Args.spec (VStr "001") Args.defaults)) Args.discard
     && Args.on (Args.set_flag Args.discard
                   (Args.set_value Args.spec (VStr "001") Args.defaults)) Args.merge
     = false
  /\ rejects_both Args.merge Args.review = true.
Proof.
  split; [reflexivity|]. split.
  - exact (proj1 C8_build_group_is_exclusive
             ["--spec"; "001"; "--discard"]
             (Args.set_flag Args.discard (Args.set_value Args.spec (VStr "001") Args.defaults))
             Args.discard Args.merge eq_refl eq_refl eq_refl
             ltac:(discriminate)).
  - reflexivity.
Defined.

Lemma cli_choice_detected (env : gmap string string) cli settings :
  existsb (String.eqb cli) cli_choices = true ->
  exists c, CLIType.value c = cli
            /\ result (CLIManager._detect_cli (<[ CLI_PROVIDER_ENV := cli ]> env) settings)
               = Returns c
            /\ result (CLIManager.__init__ (<[ CLI_PROVIDER_ENV := cli ]> env) settings)
               = Returns c.
Proof.
  intros Hc. cbn in Hc.
  assert (exists c, CLIType.value c = cli) as [c <-].
  { destruct (String.eqb_spec cli "claude") as [->|_]; [now exists CLIType.CLAUDE|].
    destruct (String.eqb_spec cli "opencode") as [->|_]; [now exists CLIType.OPENCODE|].
    discriminate. }
  exists c. split; [reflexivity|].
  assert (CLIManager._detect_cli (<[ CLI_PROVIDER_ENV := CLIType.value c ]> env) settings
          = ([(INFO, "CLI from environment: " +:+ CLIType.value c)], Returns c)) as E.
  { apply detect_cli_override.
    rewrite (environ_get_set _ _ (CLIType.value c)) by apply lookup_insert_eq.
    now destruct c. }
  split; [now rewrite E|].
  unfold CLIManager.__init__. now rewrite E.
Qed.

(** C9: when [--cli] is given a value, [_run_cli] sets [CLI_PROVIDER]
    to exactly that value before it calls anything but
    [get_project_dir]: every later call (the configuration display,
    [find_spec], every handler) is made in the updated environment, in
    which [_detect_cli], hence every [CLIManager] constructed, yields
    the selected CLI type whatever the settings file holds.  The update
    touches no other variable, and it is the only change the function
    makes to the environment. *)
Theorem C9_cli_selector_sets_environment w argv args p cli :
  parse_args argv = Argparse.Namespace args ->
  Args.value args Args.cli = VStr cli ->
  let forced := <[ CLI_PROVIDER_ENV := cli ]> (environ p) in
  (exists before after st,
      _run_cli w argv p =
        ({| environ := forced; trace := trace p ++ before ++ after |}, Some st)
      /\ calls before = [get_project_dir]
      /\ Forall (sees forced) after)
  /\ forced !! CLI_PROVIDER_ENV = Some cli
  /\ (forall name, name <> CLI_PROVIDER_ENV -> forced !! name = environ p !! name)
  /\ (forall settings, exists c,
        CLIType.value c = cli
        /\ result (CLIManager._detect_cli forced settings) = Returns c
        /\ result (CLIManager.__init__ forced settings) = Returns c).
Proof.
  intros Hparse Hcli forced.
  destruct (parse_inv_holds argv args Hparse) as (seen & _ & _ & Hok).
  pose proof Hok as Hchoice. rewrite Hcli in Hchoice. cbn [cli_value_ok] in Hchoice.
  assert (PyText.nonempty cli = true) as Hne.
  { destruct cli; [discriminate Hchoice | reflexivity]. }
  assert (forced_environ args (environ p) = forced) as Hforced.
  { unfold forced_environ. now rewrite Hcli, Hne. }
  split; [|split; [|split]].
  - destruct (run_parsed_shape w args p Hok)
      as (before & after & st & Hrun & Hb & _ & Ha & _).
    rewrite Hforced in Hrun, Ha.
    exists before, after, st. unfold _run_cli. rewrite Hparse. auto.
  - apply lookup_insert_eq.
  - intros name Hname. now apply lookup_insert_ne.
  - intros settings. now apply cli_choice_detected.
Qed.

Lemma C9_cli_selector_sets_environment_witness :
  let argv := ["--cli"; "opencode"; "--spec"; "001"] in
  let args := Args.set_value Args.spec (VStr "001")
                (Args.set_value Args.cli (VStr "opencode") Args.defaults) in
  let settings := Document (JDict [("cli", JStr "claude")]) in
  parse_args argv = Argparse.Namespace args
  /\ Args.value args Args.cli = VStr "opencode"
  /\ exists c, CLIType.value c = "opencode"
               /\ result (CLIManager._detect_cli
                            (<[ CLI_PROVIDER_ENV := "opencode" ]> ∅) settings) = Returns c.
Proof.
  split; [reflexivity | split; [reflexivity|]].
  destruct (C9_cli_selector_sets_environment
              {| project_dir_is := "/work"; spec_dir_of := fun _ => None;
                 merge_preview_json := "{}"; merge_succeeds := true;
                 create_pr_succeeds := true |}
              ["--cli"; "opencode"; "--spec"; "001"]
              (Args.set_value Args.spec (VStr "001")
                 (Args.set_value Args.cli (VStr "opencode") Args.defaults))
              {| environ := ∅; trace := [] |} "opencode" eq_refl eq_refl)
    as (_ & _ & _ & Hdetect).
  destruct (Hdetect (Document (JDict [("cli", JStr "claude")]))) as (c & Hc & Hr & _).
  exists c. split; [exact Hc | exact Hr].
Defined.

End CommandLayer.

(** ** Evaluations *)

Section Evaluations.

Example strip_lower_ex : PyText.lower (PyText.strip "  OpenCode  ") = "opencode".
Proof. reflexivity. Qed.

Example title_ex :
  map (fun c => PyText.title (CLIType.value c)) CLIType.members = ["Claude"; "Opencode"].
Proof. reflexivity. Qed.

Example py_str_list_ex :
  py_str (JList [JStr "a'b"; JNone; JBool true; JDict [("k", JInt (-2))]])
  = "[" +:+ PyText.repr_str "a'b" +:+ ", None, True, {'k': -2}]".
Proof. reflexivity. Qed.

Example int_ex :
  map PyInt.parse [" +1_0 "; "-5"; "00"; "1__0"; "_1"; "0x10"; "+-1"; EmptyString]
  = [Some 10%Z; Some (-5)%Z; Some 0%Z; None; None; None; None; None].
Proof. reflexivity. Qed.

Example parse_abbreviation_ex :
  parse_args ["--merge-p"]
  = Argparse.Namespace (Args.set_flag Args.merge_preview Args.defaults).
Proof. reflexivity. Qed.

Example parse_ambiguous_ex :
  parse_args ["--help"; "--mer"]
  = Argparse.Error "ambiguous option: --mer could match --merge, --merge-preview".
Proof. reflexivity. Qed.

Example parse_conflict_ex :
  parse_args ["--review"; "--spec"; "001"; "--merge"]
  = Argparse.Error "argument --merge: not allowed with argument --review".
Proof. reflexivity. Qed.

Example parse_choice_ex :
  parse_args ["--cli"; "Claude"]
  = Argparse.Error
      "argument --cli: invalid choice: 'Claude' (choose from 'claude', 'opencode')".
Proof. reflexivity. Qed.

Example parse_value_ex :
  parse_args ["--spec"; "--merge"]
  = Argparse.Error "argument --spec: expected one argument".
Proof. reflexivity. Qed.

Example parse_help_ex :
  map parse_args [["-h"]; ["--bogus"; "--help"]; ["-hh"]]
  = [Argparse.Help; Argparse.Help; Argparse.Help].
Proof. reflexivity. Qed.

Example parse_extras_ex :
  parse_args ["--merge"; "--"; "--review"]
  = Argparse.Error "unrecognized arguments: -- --review".
Proof. reflexivity. Qed.

Example detect_settings_ex :
  CLIManager._detect_cli ∅ (Document (JDict [("cli", JInt 5)]))
  = ([(WARNING, "Invalid CLI value in settings: '5'. Using default: claude");
      (INFO, "Using default CLI: claude")], Returns CLIType.CLAUDE).
Proof. reflexivity. Qed.

Example detect_malformed_ex :
  CLIManager._detect_cli ∅ (Malformed "Expecting value: line 1 column 1 (char 0)")
  = ([(DEBUG, "Failed to read settings file: Expecting value: line 1 column 1 (char 0)");
      (INFO, "Using default CLI: claude")], Returns CLIType.CLAUDE).
Proof. reflexivity. Qed.

Example validate_ex :
  result (CLIManager.validate_cli CLIType.OPENCODE ∅ (fun _ => true)
            (fun _ => Some "/usr/bin/opencode")
            (fun _ => Returns {| returncode := 0; stdout := "v9.9.9 "; stderr := "" |}))
  = Returns (true, "Opencode CLI is working (version: v9.9.9)").
Proof. reflexivity. Qed.

Example validate_timeout_ex :
  result (CLIManager.validate_cli CLIType.CLAUDE ∅ (fun _ => true)
            (fun _ => Some "/usr/bin/claude")
            (fun _ => Raises (mk_exn TimeoutExpired "timed out after 10 seconds")))
  = Returns (false, "Claude CLI timed out when checking version").
Proof. reflexivity. Qed.

End Evaluations.

(** * Further properties *)

(** ** Further properties of [core/cli_manager.py] *)

Section ManagerFacts.

Import CLIManager.

Implicit Types (environ : gmap string string) (settings : settings_file).

Lemma truthy_str_some o e : truthy_str o = Some e -> o = Some e /\ PyText.nonempty e = true.
Proof.
  unfold truthy_str. destruct o as [s|]; [|discriminate].
  destruct (PyText.nonempty s) eqn:E; [|discriminate]. now intros [= ->].
Qed.

(** What [get_cli_path] returns and logs, by the state of the override. *)
Lemma get_cli_path_cases cli_type environ exists_ which :
  get_cli_path cli_type environ exists_ which =
    (from_env <-
       match truthy_str (environ !! path_env_of cli_type) with
       | Some env_path =>
           if exists_ env_path then
             log INFO ((if bool_decide (cli_type = CLIType.CLAUDE)
                        then "Claude" else "OpenCode")
                       +:+ " CLI path from env: " +:+ env_path) ;;
             ret (Some env_path)
           else
             log WARNING (path_env_of cli_type +:+ " set but path not found: "
                          +:+ env_path) ;;
             ret None
       | None => ret None
       end ;;
     match from_env with
     | Some path => ret (Some path)
     | None =>
         match truthy_str (which (binary_of cli_type)) with
         | Some path =>
             log INFO ((if bool_decide (cli_type = CLIType.CLAUDE)
                        then "Claude" else "OpenCode")
                       +:+ " CLI found in PATH: " +:+ path) ;;
             ret (Some path)
         | None =>
             log WARNING ((if bool_decide (cli_type = CLIType.CLAUDE)
                           then "Claude Code" else "OpenCode")
                          +:+ " CLI not found") ;;
             ret None
         end
     end).
Proof. now destruct cli_type. Qed.

(** X1: an override of the executable path that exists is returned,
    whatever the search path holds; one that does not exist is never
    returned: a warning names it and the result is that of the search. *)
Theorem locate_override_precedence cli_type environ exists_ which env_path :
  environ !! path_env_of cli_type = Some env_path ->
  PyText.nonempty env_path = true ->
  (exists_ env_path = true ->
   result (get_cli_path cli_type environ exists_ which) = Returns (Some env_path))
  /\ (exists_ env_path = false ->
      result (get_cli_path cli_type environ exists_ which)
        = Returns (truthy_str (which (binary_of cli_type)))
      /\ (WARNING, path_env_of cli_type +:+ " set but path not found: " +:+ env_path)
           ∈ logs (get_cli_path cli_type environ exists_ which)).
Proof.
  intros Henv Hne. rewrite get_cli_path_cases, Henv. cbn [truthy_str]. rewrite Hne.
  split; intros Hex; rewrite Hex.
  - reflexivity.
  - destruct (truthy_str (which (binary_of cli_type))); (split; [reflexivity|]);
      cbn; set_solver.
Qed.

Lemma locate_override_precedence_witness :
  let environ : gmap string string := {[ OPENCODE_CLI_PATH_ENV := "/opt/oc" ]} in
  environ !! path_env_of CLIType.OPENCODE = Some "/opt/oc"
  /\ result (get_cli_path CLIType.OPENCODE environ
               (fun path => String.eqb path "/usr/bin/opencode")
               (fun _ => Some "/usr/bin/opencode"))
     = Returns (Some "/usr/bin/opencode")
  /\ result (get_cli_path CLIType.OPENCODE environ (fun _ => true)
               (fun _ => Some "/usr/bin/opencode"))
     = Returns (Some "/opt/oc").
Proof.
  split; [reflexivity|]. split.
  - exact (proj1 (proj2 (locate_override_precedence CLIType.OPENCODE
                           {[ OPENCODE_CLI_PATH_ENV := "/opt/oc" ]}
                           (fun path => String.eqb path "/usr/bin/opencode")
                           (fun _ => Some "/usr/bin/opencode") "/opt/oc"
                           eq_refl eq_refl) eq_refl)).
  - exact (proj1 (locate_override_precedence CLIType.OPENCODE
                    {[ OPENCODE_CLI_PATH_ENV := "/opt/oc" ]}
                    (fun _ => true)
                    (fun _ => Some "/usr/bin/opencode") "/opt/oc"
                    eq_refl eq_refl) eq_refl).
Defined.

(** X2: a path override set to the empty string is an unset one: same
    result, same log records.  (No trimming is done: an override of
    white space is a path like any other.) *)
Theorem empty_path_override_is_unset cli_type environ exists_ which :
  environ !! path_env_of cli_type = Some EmptyString ->
  get_cli_path cli_type environ exists_ which
    = get_cli_path cli_type (delete (path_env_of cli_type) environ) exists_ which.
Proof.
  intros Henv. rewrite !get_cli_path_cases, Henv, lookup_delete_eq. reflexivity.
Qed.

Lemma empty_path_override_is_unset_witness :
  let environ : gmap string string := {[ CLAUDE_CLI_PATH_ENV := EmptyString ]} in
  environ !! path_env_of CLIType.CLAUDE = Some EmptyString
  /\ get_cli_path CLIType.CLAUDE environ (fun _ => false) (fun _ => None)
     = get_cli_path CLIType.CLAUDE (delete CLAUDE_CLI_PATH_ENV environ)
         (fun _ => false) (fun _ => None).
Proof.
  split; [reflexivity|].
  exact (empty_path_override_is_unset CLIType.CLAUDE
           {[ CLAUDE_CLI_PATH_ENV := EmptyString ]} (fun _ => false) (fun _ => None)
           eq_refl).
Defined.

(** X3: when no executable was located, or the located path does not
    exist, [validate_cli] does not run the probe: its log and result
    are the same for every behaviour of the probe. *)
Theorem validate_without_executable_runs_no_probe
    cli_type environ exists_ which located probe1 probe2 :
  result (get_cli_path cli_type environ exists_ which) = Returns located ->
  (forall cli_path, located = Some cli_path -> exists_ cli_path = false) ->
  validate_cli cli_type environ exists_ which probe1
    = validate_cli cli_type environ exists_ which probe2.
Proof.
  intros Hloc Hgone. unfold validate_cli.
  destruct (get_cli_path cli_type environ exists_ which) as [l r].
  cbn in Hloc. subst r. cbn [bind].
  destruct located as [cli_path|]; [|reflexivity].
  now rewrite (Hgone cli_path eq_refl).
Qed.

Lemma validate_without_executable_runs_no_probe_witness :
  validate_cli CLIType.CLAUDE ∅ (fun _ => false) (fun _ => Some "/usr/bin/claude")
    (fun _ => Returns {| returncode := 0; stdout := "1.0"; stderr := EmptyString |})
  = validate_cli CLIType.CLAUDE ∅ (fun _ => false) (fun _ => Some "/usr/bin/claude")
      (fun _ => Raises (mk_exn TimeoutExpired "timed out")).
Proof.
  refine (validate_without_executable_runs_no_probe CLIType.CLAUDE ∅
            (fun _ => false) (fun _ => Some "/usr/bin/claude")
            (Some "/usr/bin/claude") _ _ eq_refl _).
  intros cli_path _. reflexivity.
Defined.

End ManagerFacts.

Section ResolverFacts.

Import CLIManager.

Implicit Types (environ : gmap string string) (settings : settings_file).

Lemma of_value_returns_member s p :
  CLIProvider.of_value s = ret p -> s = CLIProvider.value p.
Proof.
  unfold CLIProvider.of_value.
  destruct (List.find _ CLIProvider.members) as [q|] eqn:E; [|discriminate].
  intros [= ->]. apply find_some in E as [_ E]. symmetry. now apply String.eqb_eq.
Qed.

(** The last step of [get_opencode_provider] always returns. *)
Lemma provider_validated provider_str :
  exists l p,
    try_except (CLIProvider.of_value provider_str) [ValueError]
      (fun _ => log WARNING (invalid_provider_warning provider_str) ;;
                ret CLIProvider.CLAUDE) = (l, Returns p).
Proof.
  unfold CLIProvider.of_value.
  destruct (List.find _ CLIProvider.members); cbn; eauto.
Qed.

(** X4: the providers that the authentication descriptor of OpenCode
    advertises are exactly the texts [CLIProvider] accepts, so every
    provider [get_opencode_provider] returns is advertised; the
    descriptor of Claude has no such item; and the [cli] item of each
    descriptor is the value of the CLI type it was asked for. *)
Theorem advertised_providers_are_accepted :
  assoc "providers" (get_auth_info CLIType.CLAUDE) = None
  /\ (forall c, assoc "cli" (get_auth_info c) = Some (JStr (CLIType.value c)))
  /\ exists advertised,
       assoc "providers" (get_auth_info CLIType.OPENCODE) = Some (JList advertised)
       /\ (forall s, In (JStr s) advertised <-> exists p, CLIProvider.of_value s = ret p)
       /\ (forall environ settings p,
             result (get_opencode_provider environ settings) = Returns p ->
             In (JStr (CLIProvider.value p)) advertised).
Proof.
  split; [reflexivity|]. split; [now intros []|].
  eexists. split; [reflexivity|]. split.
  - intros s. split.
    + cbn. intros H.
      repeat (destruct H as [[= <-]|H]; [eexists; reflexivity|]). contradiction.
    + intros [p Hp]. apply of_value_returns_member in Hp as ->.
      destruct p; cbn; tauto.
  - intros environ settings p _. destruct p; cbn; tauto.
Qed.

(** X5: with an override of the sub-provider that is not blank, the
    settings file is not read: log and result are the same for every
    settings file, and the call returns. *)
Theorem provider_override_shields_settings environ settings settings' :
  PyText.lower (PyText.strip (environ_get environ OPENCODE_PROVIDER_ENV)) <> EmptyString ->
  get_opencode_provider environ settings = get_opencode_provider environ settings'
  /\ exists p, result (get_opencode_provider environ settings) = Returns p.
Proof.
  intros Hne. rewrite !provider_from_override by exact Hne.
  split; [reflexivity|].
  destruct (provider_validated
              (PyText.lower (PyText.strip (environ_get environ OPENCODE_PROVIDER_ENV))))
    as (l & p & ->). now exists p.
Qed.

Lemma provider_override_shields_settings_witness :
  let environ : gmap string string := {[ OPENCODE_PROVIDER_ENV := "Zen" ]} in
  get_opencode_provider environ (Document (JList []))
    = get_opencode_provider environ Missing
  /\ exists p, result (get_opencode_provider environ (Document (JList []))) = Returns p.
Proof.
  refine (provider_override_shields_settings {[ OPENCODE_PROVIDER_ENV := "Zen" ]}
            (Document (JList [])) Missing _).
  intros H. vm_compute in H. discriminate H.
Defined.

(** X6: with an override of the CLI type that names a CLI, the
    settings file is not read: log and result are the same for every
    settings file, and the result is the CLI named. *)
Theorem cli_override_shields_settings environ settings settings' c :
  PyText.lower (PyText.strip (environ_get environ CLI_PROVIDER_ENV)) = CLIType.value c ->
  _detect_cli environ settings = _detect_cli environ settings'
  /\ result (_detect_cli environ settings) = Returns c.
Proof.
  intros Hc. rewrite !(detect_cli_override environ _ c Hc). now split.
Qed.

Lemma cli_override_shields_settings_witness :
  let environ : gmap string string := {[ CLI_PROVIDER_ENV := " OpenCode" ]} in
  _detect_cli environ (Document (JList [])) = _detect_cli environ Missing
  /\ result (_detect_cli environ (Document (JList []))) = Returns CLIType.OPENCODE.
Proof.
  exact (cli_override_shields_settings {[ CLI_PROVIDER_ENV := " OpenCode" ]}
           (Document (JList [])) Missing CLIType.OPENCODE eq_refl).
Defined.



End ResolverFacts.

Section SettingsEdges.

Import CLIManager.

Implicit Types (environ : gmap string string) (settings : settings_file).


(** X9: how [_detect_cli] reads the [cli] item of a settings object
    when no override decides.  A value that is absent or falsy ([null],
    [false], [0], an empty string, list or object) is passed over in
    silence; a truthy value whose text, trimmed and lower-cased, names
    no CLI (a number, a list, a string of white space) gives one
    warning that quotes that text.  Both end in the default. *)
Theorem settings_cli_edge_values environ bindings :
  PyText.lower (PyText.strip (environ_get environ CLI_PROVIDER_ENV)) = EmptyString ->
  let cli := default JNone (assoc "cli" bindings) in
  let named := PyText.lower (PyText.strip (py_str cli)) in
  (truthy cli = false ->
   _detect_cli environ (Document (JDict bindings))
     = ([(INFO, "Using default CLI: claude")], Returns CLIType.CLAUDE))
  /\ (truthy cli = true ->
      named ∉ map CLIType.value CLIType.members ->
      _detect_cli environ (Document (JDict bindings))
        = ([(WARNING, "Invalid CLI value in settings: '" +:+ named
                      +:+ "'. Using default: claude");
            (INFO, "Using default CLI: claude")], Returns CLIType.CLAUDE)).
Proof.
  intros Hblank cli named.
  rewrite (detect_cli_no_override _ _ Hblank).
  unfold detect_after_env, detect_in_settings. cbn [settings_exists load_settings].
  rewrite bind_ret_l. cbn [py_get]. rewrite bind_ret_l. fold cli.
  split.
  - intros ->. reflexivity.
  - intros -> Hnot. fold named.
    destruct (String.eqb_spec named (CLIType.value CLIType.OPENCODE)) as [E|_].
    { exfalso. apply Hnot. rewrite E. cbn. set_solver. }
    destruct (String.eqb_spec named (CLIType.value CLIType.CLAUDE)) as [E|_].
    { exfalso. apply Hnot. rewrite E. cbn. set_solver. }
    reflexivity.
Qed.

Lemma settings_cli_edge_values_witness :
  _detect_cli ∅ (Document (JDict [("cli", JBool false)]))
    = ([(INFO, "Using default CLI: claude")], Returns CLIType.CLAUDE)
  /\ _detect_cli ∅ (Document (JDict [("cli", JStr "  ")]))
     = ([(WARNING, "Invalid CLI value in settings: ''. Using default: claude");
         (INFO, "Using default CLI: claude")], Returns CLIType.CLAUDE).
Proof.
  split.
  - exact (proj1 (settings_cli_edge_values ∅ [("cli", JBool false)] eq_refl) eq_refl).
  - refine (proj2 (settings_cli_edge_values ∅ [("cli", JStr "  ")] eq_refl) eq_refl _).
    intros H. apply list_elem_of_In in H. vm_compute in H. intuition discriminate.
Defined.

(** X10: how [get_opencode_provider] reads [opencode.provider] when no
    override decides.  A value that is absent, falsy, or blank once
    trimmed gives the default with no log record at all; a value whose
    normalized text is not blank and names no provider gives one
    warning and the default. *)
Theorem settings_provider_edge_values environ bindings config :
  PyText.lower (PyText.strip (environ_get environ OPENCODE_PROVIDER_ENV)) = EmptyString ->
  assoc "opencode" bindings = Some (JDict config) ->
  let provider := default JNone (assoc "provider" config) in
  let named := PyText.lower (PyText.strip (py_str provider)) in
  (truthy provider = false \/ named = EmptyString ->
   get_opencode_provider environ (Document (JDict bindings))
     = ([], Returns CLIProvider.CLAUDE))
  /\ (truthy provider = true ->
      named <> EmptyString ->
      named ∉ map CLIProvider.value CLIProvider.members ->
      get_opencode_provider environ (Document (JDict bindings))
        = ([(WARNING, invalid_provider_warning named)], Returns CLIProvider.CLAUDE)).
Proof.
  intros Hblank Hcfg provider named.
  unfold get_opencode_provider. rewrite Hblank.
  cbn [PyText.nonempty negb settings_exists load_settings].
  rewrite bind_ret_l. cbn [py_get]. rewrite Hcfg. cbn [default from_option id].
  rewrite bind_ret_l. cbn [py_get]. rewrite bind_ret_l. fold provider.
  split.
  - intros [Hf | Hn].
    + rewrite Hf. reflexivity.
    + destruct (truthy provider); [|reflexivity]. fold named. rewrite Hn. reflexivity.
  - intros -> Hne Hnot. fold named. cbn [try_except caught_by ret].
    rewrite bind_ret_l. rewrite (nonempty_true _ Hne). cbn [negb].
    rewrite (of_value_other _ Hnot). reflexivity.
Qed.

Lemma settings_provider_edge_values_witness :
  get_opencode_provider ∅
    (Document (JDict [("opencode", JDict [("provider", JStr "   ")])]))
    = ([], Returns CLIProvider.CLAUDE)
  /\ get_opencode_provider ∅
       (Document (JDict [("opencode", JDict [("provider", JStr "Azure")])]))
     = ([(WARNING, invalid_provider_warning "azure")], Returns CLIProvider.CLAUDE).
Proof.
  split.
  - exact (proj1 (settings_provider_edge_values ∅
                    [("opencode", JDict [("provider", JStr "   ")])]
                    [("provider", JStr "   ")] eq_refl eq_refl)
             (or_intror eq_refl)).
  - refine (proj2 (settings_provider_edge_values ∅
                     [("opencode", JDict [("provider", JStr "Azure")])]
                     [("provider", JStr "Azure")] eq_refl eq_refl) eq_refl _ _).
    + discriminate.
    + intros H. apply list_elem_of_In in H. vm_compute in H. intuition discriminate.
Defined.

End SettingsEdges.

Section PrintingFacts.

Import CLIManager.

Implicit Types (environ : gmap string string) (settings : settings_file).

Lemma get_cli_path_pair cli_type environ exists_ which :
  exists l located, get_cli_path cli_type environ exists_ which = (l, Returns located).
Proof.
  destruct (get_cli_path_returns cli_type environ exists_ which) as [located H].
  destruct (get_cli_path cli_type environ exists_ which) as [l r].
  cbn in H. subst r. eauto.
Qed.

Lemma snd_io_bind {A B} (m : io A) (k : A -> io B) :
  snd (io_bind m k) = match snd m with
                      | Returns a => snd (k a)
                      | Raises e => Raises e
                      end.
Proof. destruct m as [o [a|e]]; cbn; [now destruct (k a) | reflexivity]. Qed.

Lemma printed_io_bind {A B} (m : io A) (k : A -> io B) :
  printed (io_bind m k)
  = printed m ++ match snd m with
                 | Returns a => printed (k a)
                 | Raises _ => []
                 end.
Proof.
  unfold printed. destruct m as [o [a|e]]; cbn.
  - destruct (k a). cbn. apply omap_app.
  - now rewrite app_nil_r.
Qed.

Lemma printed_lift {A} (m : run A) : printed (lift m) = [].
Proof. unfold printed, lift. cbn. induction (logs m); cbn; auto. Qed.

Lemma snd_lift {A} (m : run A) : snd (lift m) = result m.
Proof. reflexivity. Qed.

Lemma printed_print text : printed (print text) = [text].
Proof. reflexivity. Qed.

Lemma snd_print text : snd (print text) = Returns tt.
Proof. reflexivity. Qed.

Lemma auth_type_item cli_type :
  result (py_getitem (get_auth_info cli_type) "type")
  = Returns (JStr (if bool_decide (cli_type = CLIType.CLAUDE)
                   then "oauth" else "multi_provider")).
Proof. now destruct cli_type. Qed.

Lemma snd_io_for {A} (items : list A) (text : A -> string) :
  snd (io_for items (fun item => print (text item))) = Returns tt.
Proof.
  induction items as [|item rest IH]; [reflexivity|].
  cbn [io_for]. now rewrite snd_io_bind, snd_print.
Qed.

Lemma printed_io_for {A} (items : list A) (text : A -> string) :
  printed (io_for items (fun item => print (text item))) = map text items.
Proof.
  induction items as [|item rest IH]; [reflexivity|].
  cbn [io_for]. now rewrite printed_io_bind, snd_print, printed_print, IH.
Qed.

Ltac find_in :=
  first [ left; reflexivity
        | right; find_in
        | apply in_or_app; left; find_in
        | apply in_or_app; right; find_in ].

Ltac io_steps :=
  repeat first
    [ rewrite snd_io_bind | rewrite printed_io_bind | rewrite snd_lift
    | rewrite printed_lift | rewrite snd_print | rewrite printed_print
    | rewrite auth_type_item | rewrite snd_io_for | rewrite printed_io_for ].



End PrintingFacts.

Section PackageFacts.

(** X13: which names the package resolves.  [__getattr__] returns for
    exactly twelve names, and raises [AttributeError] for every other
    one.  Of the names [__all__] exports, one does not resolve:
    [create_claude_client] (the function resolves [create_client]). *)
Theorem package_resolves package name :
  match Core.__getattr__ package name with
  | Returns (_, attribute) => attribute = name /\ In name resolvable
  | Raises e =>
      ~ In name resolvable
      /\ e = mk_exn AttributeError
               ("module " +:+ PyText.repr_str package +:+ " has no attribute "
                +:+ PyText.repr_str name)
  end
  /\ List.filter (fun exported => negb (Core.among exported resolvable)) Core.__all__
     = ["create_claude_client"].
Proof.
  split; [|reflexivity].
  unfold Core.__getattr__, Core.among, resolvable. cbn [existsb].
  repeat (match goal with
          | |- context [String.eqb name ?s] =>
              destruct (String.eqb_spec name s) as [->|?];
              [cbn; split; [reflexivity | tauto] | cbn [orb]]
          end).
  cbn. split; [|reflexivity]. intros H.
  repeat (destruct H as [H|H]; [congruence|]). contradiction.
Qed.

End PackageFacts.

(** ** Further properties of [cli/main.py]: dispatch *)

Section DispatchMore.

Implicit Types (p : process) (w : answers) (args : Args.t).

(** The priority chain: the one call it makes, and how it ends. *)
Lemma run_command_calls w args p :
  exists added,
    run_command w args p =
      ({| environ := environ p; trace := trace p ++ added |},
       Some (command_status w args))
    /\ calls added = [selected_handler args].
Proof.
  unfold run_command, command_status, selected_handler, priority_order.
  cbn [List.find fst snd].
  repeat match goal with
         | |- context [Args.on args ?f] => destruct (Args.on args f)
         end.
  all: try destruct (merge_succeeds w); try destruct (create_pr_succeeds w).
  all: cbv [seq when call emit end_with skip negb environ trace].
  all: rewrite <- ?app_assoc.
  all: eexists; split; reflexivity.
Qed.

(** Every run of [_run_cli] after parsing: the calls it makes, in
    order, the way it ends, and the environment it leaves. *)
Lemma run_parsed_calls w args p :
  cli_value_ok (Args.value args Args.cli) = true ->
  exists added,
    run_parsed w args p =
      ({| environ := forced_environ args (environ p); trace := trace p ++ added |},
       Some (expected_status w args))
    /\ calls added = expected_calls w args.
Proof.
  intros Hok. unfold run_parsed, expected_status, expected_calls. run_steps.
  match goal with
  | |- context [force_cli args ?q] =>
      destruct (force_cli_runs args q Hok) as (forced & -> & Hforced)
  end.
  cbn [environ trace]. set (env' := forced_environ args (environ p)).
  destruct (Args.on args Args.info).
  { run_steps. eexists (_ :: _ :: _ :: _ :: forced ++ [_]).
    split; [f_equal; f_equal; rewrite <- !app_assoc; reflexivity|].
    cbn. rewrite calls_app, Hforced. reflexivity. }
  destruct (is_true (Args.value args Args.spec)).
  2:{ unfold spec_required. run_steps.
      eexists (_ :: _ :: _ :: _ :: forced ++ _).
      split; [f_equal; f_equal; rewrite <- !app_assoc; reflexivity|].
      cbn. rewrite calls_app, Hforced. reflexivity. }
  run_steps.
  destruct (spec_dir_of w (Args.value args Args.spec)).
  2:{ unfold spec_not_found. run_steps.
      eexists (_ :: _ :: _ :: _ :: forced ++ _).
      split; [f_equal; f_equal; rewrite <- !app_assoc; reflexivity|].
      cbn. rewrite calls_app, Hforced. reflexivity. }
  run_steps.
  match goal with
  | |- context [run_command w args ?q] =>
      destruct (run_command_calls w args q) as (added & -> & Hcalls)
  end.
  cbn [environ trace].
  eexists (_ :: _ :: _ :: _ :: forced ++ _ :: _ :: _ :: _ :: added).
  split; [f_equal; f_equal; rewrite <- !app_assoc; reflexivity|].
  unfold calls in *. cbn. rewrite omap_app, Hforced. cbn. now rewrite Hcalls.
Qed.

(** X14: a spec that [find_spec] does not find.  The run prints the
    error and the heading, calls [print_specs_list], and exits with
    code 1; no handler of a terminal operation is called, in
    particular not the build. *)
Theorem spec_not_found_lists_specs_and_exits_1 w args p :
  cli_value_ok (Args.value args Args.cli) = true ->
  Args.on args Args.info = false ->
  is_true (Args.value args Args.spec) = true ->
  spec_dir_of w (Args.value args Args.spec) = None ->
  exists added,
    run_parsed w args p =
      ({| environ := forced_environ args (environ p); trace := trace p ++ added |},
       Some (SystemExit 1))
    /\ calls added = [get_project_dir; find_spec; print_banner; print_specs_list]
    /\ handlers_run added = [].
Proof.
  intros Hok Hinfo Hspec Hnone.
  destruct (run_parsed_calls w args p Hok) as (added & Hrun & Hcalls).
  unfold expected_status in Hrun. unfold expected_calls in Hcalls.
  rewrite Hinfo, Hspec, Hnone in *. cbn [negb] in *.
  exists added. split; [exact Hrun|]. split; [exact Hcalls|].
  unfold handlers_run. now rewrite Hcalls.
Qed.

Lemma spec_not_found_lists_specs_and_exits_1_witness :
  let w := {| project_dir_is := "/work"; spec_dir_of := fun _ => None;
              merge_preview_json := "{}"; merge_succeeds := true;
              create_pr_succeeds := true |} in
  let args := Args.set_flag Args.merge
                (Args.set_value Args.spec (VStr "042") Args.defaults) in
  exists added,
    run_parsed w args {| environ := ∅; trace := [] |} =
      ({| environ := ∅; trace := added |}, Some (SystemExit 1))
    /\ calls added = [get_project_dir; find_spec; print_banner; print_specs_list]
    /\ handlers_run added = [].
Proof.
  exact (spec_not_found_lists_specs_and_exits_1
           {| project_dir_is := "/work"; spec_dir_of := fun _ => None;
              merge_preview_json := "{}"; merge_succeeds := true;
              create_pr_succeeds := true |}
           (Args.set_flag Args.merge
              (Args.set_value Args.spec (VStr "042") Args.defaults))
           {| environ := ∅; trace := [] |} eq_refl eq_refl eq_refl eq_refl).
Defined.

(** X15: what the exit status owes to the handler.  With a resolved
    spec, the run exits with code 1 exactly when the selected operation
    is merge and [handle_merge_command] reported failure, or is
    create-pr and its result has no true [success]; after every other
    handler it returns, whatever the handler returned. *)
Theorem handler_failure_exits_1_for_merge_and_pr_only w args p d :
  cli_value_ok (Args.value args Args.cli) = true ->
  Args.on args Args.info = false ->
  is_true (Args.value args Args.spec) = true ->
  spec_dir_of w (Args.value args Args.spec) = Some d ->
  exists st,
    snd (run_parsed w args p) = Some st
    /\ (st = SystemExit 1 \/ st = Returned)
    /\ (st = SystemExit 1 <->
        (selected_handler args = handle_merge_command /\ merge_succeeds w = false)
        \/ (selected_handler args = handle_create_pr_command
            /\ create_pr_succeeds w = false)).
Proof.
  intros Hok Hinfo Hspec Hdir.
  destruct (run_parsed_calls w args p Hok) as (added & Hrun & _).
  unfold expected_status in Hrun. rewrite Hinfo, Hspec, Hdir in Hrun. cbn [negb] in Hrun.
  exists (command_status w args). rewrite Hrun. split; [reflexivity|].
  unfold command_status.
  destruct (selected_handler args), (merge_succeeds w), (create_pr_succeeds w);
    (split; [auto|]); split; intros H;
    first [ discriminate H
          | left; split; reflexivity
          | right; split; reflexivity
          | destruct H as [[H1 H2]|[H1 H2]];
            first [ discriminate H1 | discriminate H2 | reflexivity ] ].
Qed.

Lemma handler_failure_exits_1_for_merge_and_pr_only_witness :
  let w := {| project_dir_is := "/work"; spec_dir_of := fun _ => Some "001-x";
              merge_preview_json := "{}"; merge_succeeds := false;
              create_pr_succeeds := false |} in
  let args := Args.set_flag Args.review
                (Args.set_value Args.spec (VStr "001") Args.defaults) in
  exists st,
    snd (run_parsed w args {| environ := ∅; trace := [] |}) = Some st
    /\ (st = SystemExit 1 \/ st = Returned)
    /\ (st = SystemExit 1 <->
        (selected_handler args = handle_merge_command /\ merge_succeeds w = false)
        \/ (selected_handler args = handle_create_pr_command
            /\ create_pr_succeeds w = false)).
Proof.
  exact (handler_failure_exits_1_for_merge_and_pr_only
           {| project_dir_is := "/work"; spec_dir_of := fun _ => Some "001-x";
              merge_preview_json := "{}"; merge_succeeds := false;
              create_pr_succeeds := false |}
           (Args.set_flag Args.review
              (Args.set_value Args.spec (VStr "001") Args.defaults))
           {| environ := ∅; trace := [] |} "001-x" eq_refl eq_refl eq_refl eq_refl).
Defined.



(** X17: without a spec and without [--info], every run is the usage
    error: the banner, the text, exit code 1, and no call to
    [find_spec] or to a handler, whatever the other flags are. *)
Theorem missing_spec_exits_1_whatever_the_flags w args p :
  cli_value_ok (Args.value args Args.cli) = true ->
  Args.on args Args.info = false ->
  is_true (Args.value args Args.spec) = false ->
  exists added,
    run_parsed w args p =
      ({| environ := forced_environ args (environ p); trace := trace p ++ added |},
       Some (SystemExit 1))
    /\ calls added = [get_project_dir; print_banner].
Proof.
  intros Hok Hinfo Hspec.
  destruct (run_parsed_calls w args p Hok) as (added & Hrun & Hcalls).
  unfold expected_status in Hrun. unfold expected_calls in Hcalls.
  rewrite Hinfo, Hspec in *. eauto.
Qed.

Lemma missing_spec_exits_1_whatever_the_flags_witness :
  let w := {| project_dir_is := "/work"; spec_dir_of := fun _ => Some "001-x";
              merge_preview_json := "{}"; merge_succeeds := true;
              create_pr_succeeds := true |} in
  let args := Args.set_flag Args.batch_status
                (Args.set_value Args.spec (VStr EmptyString) Args.defaults) in
  exists added,
    run_parsed w args {| environ := ∅; trace := [] |} =
      ({| environ := ∅; trace := added |}, Some (SystemExit 1))
    /\ calls added = [get_project_dir; print_banner].
Proof.
  exact (missing_spec_exits_1_whatever_the_flags
           {| project_dir_is := "/work"; spec_dir_of := fun _ => Some "001-x";
              merge_preview_json := "{}"; merge_succeeds := true;
              create_pr_succeeds := true |}
           (Args.set_flag Args.batch_status
              (Args.set_value Args.spec (VStr EmptyString) Args.defaults))
           {| environ := ∅; trace := [] |} eq_refl eq_refl eq_refl).
Defined.

End DispatchMore.

(** ** Further properties of [cli/main.py]: the environment, unread flags *)

Section DispatchFrame.

Implicit Types (p : process) (w : answers) (args : Args.t).

Lemma forced_environ_frame args (env : gmap string string) name :
  name <> CLI_PROVIDER_ENV -> forced_environ args env !! name = env !! name.
Proof.
  intros Hne. unfold forced_environ.
  destruct (Args.value args Args.cli) as [| cli | |]; try reflexivity.
  destruct (PyText.nonempty cli); [|reflexivity].
  now apply lookup_insert_ne.
Qed.

Lemma forced_environ_unset args (env : gmap string string) :
  is_true (Args.value args Args.cli) = false -> forced_environ args env = env.
Proof.
  unfold forced_environ, is_true.
  destruct (Args.value args Args.cli) as [| cli | |]; try reflexivity.
  now intros ->.
Qed.

(** X18: [_run_cli] itself writes no environment variable but [CLI_PROVIDER],
    on any command line; and on a command line that gives [--cli] no
    value it leaves the environment as it found it. *)
Theorem run_cli_environment_frame w argv p :
  (forall name, name <> CLI_PROVIDER_ENV ->
                environ (fst (_run_cli w argv p)) !! name = environ p !! name)
  /\ ((forall args, parse_args argv = Argparse.Namespace args ->
                    is_true (Args.value args Args.cli) = false) ->
      environ (fst (_run_cli w argv p)) = environ p).
Proof.
  unfold _run_cli.
  destruct (parse_args argv) as [args | | msg] eqn:Hparse;
    [| split; reflexivity | split; reflexivity].
  destruct (parse_inv_holds argv args Hparse) as (seen & _ & _ & Hok).
  destruct (run_parsed_calls w args p Hok) as (added & -> & _). cbn [fst environ].
  split.
  - intros name Hne. now apply forced_environ_frame.
  - intros Hcli. apply forced_environ_unset. now apply Hcli.
Qed.

Lemma run_cli_environment_frame_witness :
  let w := {| project_dir_is := "/work"; spec_dir_of := fun _ => Some "001-x";
              merge_preview_json := "{}"; merge_succeeds := true;
              create_pr_succeeds := true |} in
  let p := {| environ := {[ "HOME" := "/root" ]}; trace := [] |} in
  environ (fst (_run_cli w ["--cli"; "opencode"; "--spec"; "001"] p)) !! "HOME"
    = Some "/root"
  /\ environ (fst (_run_cli w ["--spec"; "001"; "--qa"] p)) = {[ "HOME" := "/root" ]}.
Proof.
  split.
  - refine (proj1 (run_cli_environment_frame
                     {| project_dir_is := "/work"; spec_dir_of := fun _ => Some "001-x";
                        merge_preview_json := "{}"; merge_succeeds := true;
                        create_pr_succeeds := true |}
                     ["--cli"; "opencode"; "--spec"; "001"]
                     {| environ := {[ "HOME" := "/root" ]}; trace := [] |}) "HOME" _).
    discriminate.
  - refine (proj2 (run_cli_environment_frame
                     {| project_dir_is := "/work"; spec_dir_of := fun _ => Some "001-x";
                        merge_preview_json := "{}"; merge_succeeds := true;
                        create_pr_succeeds := true |}
                     ["--spec"; "001"; "--qa"]
                     {| environ := {[ "HOME" := "/root" ]}; trace := [] |}) _).
    intros args [= <-]. reflexivity.
Defined.

(** X19: the flags [--list], [--list-worktrees], [--cleanup-worktrees],
    [--batch-status], [--batch-cleanup], [--no-dry-run] and the option
    [--batch-create] select no branch of [_run_cli]: two namespaces
    that differ only there make the same calls in the same order, print
    the same text and end with the same status.  (The debug record of
    the parsed arguments is kept without its payload.)  With a spec,
    such a flag alone therefore starts the default build. *)
Theorem never_read_flags_change_nothing w args args' p :
  (forall f, ~ In f never_read_flags -> Args.on args f = Args.on args' f) ->
  (forall o, o <> Args.batch_create -> Args.value args o = Args.value args' o) ->
  run_parsed w args p = run_parsed w args' p.
Proof.
  intros Hf Hv.
  assert (forall f, (if bool_decide (In f never_read_flags) then True
                     else Args.on args f = Args.on args' f)) as Hf'.
  { intros f. destruct (bool_decide_reflect (In f never_read_flags)); auto. }
  unfold run_parsed, force_cli, spec_not_found, spec_required, run_command.
  rewrite (Hv Args.cli) by discriminate.
  rewrite (Hv Args.spec) by discriminate.
  rewrite (Hf' Args.info), (Hf' Args.merge_preview), (Hf' Args.merge),
    (Hf' Args.review), (Hf' Args.discard), (Hf' Args.create_pr),
    (Hf' Args.qa_status), (Hf' Args.review_status), (Hf' Args.qa), (Hf' Args.followup).
  reflexivity.
Qed.

Lemma never_read_flags_change_nothing_witness :
  let w := {| project_dir_is := "/work"; spec_dir_of := fun _ => Some "001-x";
              merge_preview_json := "{}"; merge_succeeds := true;
              create_pr_succeeds := true |} in
  let args := Args.set_value Args.spec (VStr "001") Args.defaults in
  let p := {| environ := ∅; trace := [] |} in
  run_parsed w (Args.set_flag Args.cleanup_worktrees args) p = run_parsed w args p
  /\ handlers_run (trace (fst (run_parsed w args p))) = [handle_build_command].
Proof.
  split; [|reflexivity].
  refine (never_read_flags_change_nothing
            {| project_dir_is := "/work"; spec_dir_of := fun _ => Some "001-x";
               merge_preview_json := "{}"; merge_succeeds := true;
               create_pr_succeeds := true |}
            (Args.set_flag Args.cleanup_worktrees
               (Args.set_value Args.spec (VStr "001") Args.defaults))
            (Args.set_value Args.spec (VStr "001") Args.defaults)
            {| environ := ∅; trace := [] |} _ _).
  - intros f Hf. cbn.
    destruct (decide (f = Args.cleanup_worktrees)) as [->|]; [|reflexivity].
    exfalso. apply Hf. cbn. tauto.
  - intros o _. reflexivity.
Defined.

End DispatchFrame.

(** ** Further properties of [cli/main.py]: the argument layer *)

Section ParseMore.

Import Argparse.

(** X20: [--isolated] and [--direct] exclude each other: no accepted
    command line sets both. *)
Theorem workspace_group_is_exclusive argv args :
  parse_args argv = Namespace args ->
  Args.on args Args.isolated && Args.on args Args.direct = false.
Proof.
  intros Hparse.
  destruct (parse_inv_holds argv args Hparse) as (seen & Hon & Hgrp & _).
  destruct (Args.on args Args.isolated) eqn:Ei; [|reflexivity].
  destruct (Args.on args Args.direct) eqn:Ed; [|reflexivity].
  assert (Args.isolated = Args.direct) as E; [|discriminate E].
  apply (Hgrp _ _ workspace_group); auto.
Qed.

Lemma workspace_group_is_exclusive_witness :
  parse_args ["--direct"; "--spec"; "001"]
    = Namespace (Args.set_value Args.spec (VStr "001")
                   (Args.set_flag Args.direct Args.defaults))
  /\ Args.on (Args.set_value Args.spec (VStr "001")
                (Args.set_flag Args.direct Args.defaults)) Args.isolated
     && Args.on (Args.set_value Args.spec (VStr "001")
                   (Args.set_flag Args.direct Args.defaults)) Args.direct = false.
Proof.
  split; [reflexivity|].
  exact (workspace_group_is_exclusive ["--direct"; "--spec"; "001"]
           (Args.set_value Args.spec (VStr "001")
              (Args.set_flag Args.direct Args.defaults)) eq_refl).
Defined.

(** X21: every flag is accepted under its full name, given alone, and
    sets its own attribute and no other, also where the name begins
    another option's name ([--merge] and [--merge-preview], [--qa] and
    [--qa-status], [--list] and [--list-worktrees], [--review] and
    [--review-status]). *)
Theorem full_flag_names_are_exact f :
  parse_args [flag_option f] = Namespace (Args.set_flag f Args.defaults).
Proof. destruct f; reflexivity. Qed.



(** Strings left over are reported: once one is, no namespace is returned. *)
Lemma consume_extras n :
  forall tokens seen extras args res,
    length tokens <= n -> extras <> [] ->
    consume tokens seen extras args <> Namespace res.
Proof.
  induction n as [|n IH]; intros tokens seen extras args res Hlen Hne.
  - destruct tokens; [|cbn in Hlen; lia]. cbn. now destruct extras.
  - destruct tokens as [|[s t] rest]; [cbn; now destruct extras|].
    cbn in Hlen.
    assert (forall x, extras ++ [x] <> []) as Hgrow by (intros x; now destruct extras).
    destruct t as [| | name act explicit_arg |]; cbn [consume];
      try (apply IH; [lia | apply Hgrow]).
    destruct act as [| f | dest].
    + destruct explicit_arg as [e|]; [|discriminate]. unfold ignored_explicit.
      repeat (match goal with |- context [if ?b then _ else _] => destruct b end);
        discriminate.
    + destruct explicit_arg as [e|]; [discriminate|].
      destruct (conflict seen (store_true f)); [discriminate|]. apply IH; [lia | exact Hne].
    + destruct explicit_arg as [e|].
      * destruct (get_value dest e); [|discriminate]. apply IH; [lia | exact Hne].
      * destruct rest as [|[arg_string [| | |]] rest']; try discriminate.
        destruct (get_value dest arg_string); [|discriminate].
        apply IH; [cbn in Hlen; lia | exact Hne].
Qed.

(** A token that no option takes makes the command line fail. *)
Lemma consume_dashes n :
  forall tokens seen extras args res s,
    length tokens <= n -> In (s, Dashes) tokens ->
    consume tokens seen extras args <> Namespace res.
Proof.
  induction n as [|n IH]; intros tokens seen extras args res s0 Hlen Hin.
  - destruct tokens; [contradiction | cbn in Hlen; lia].
  - destruct tokens as [|[s t] rest]; [contradiction|].
    cbn in Hlen.
    assert (forall x, extras ++ [x] <> []) as Hgrow by (intros x; now destruct extras).
    destruct t as [| | name act explicit_arg |]; cbn [consume];
      try (apply (consume_extras (length rest)); [lia | apply Hgrow]).
    assert (In (s0, Dashes) rest) as Hrest by (destruct Hin as [[=]|]; assumption).
    destruct act as [| f | dest].
    + destruct explicit_arg as [e|]; [|discriminate]. unfold ignored_explicit.
      repeat (match goal with |- context [if ?b then _ else _] => destruct b end);
        discriminate.
    + destruct explicit_arg as [e|]; [discriminate|].
      destruct (conflict seen (store_true f)); [discriminate|].
      apply (IH _ _ _ _ _ s0); [lia | exact Hrest].
    + destruct explicit_arg as [e|].
      * destruct (get_value dest e); [|discriminate].
        apply (IH _ _ _ _ _ s0); [lia | exact Hrest].
      * destruct rest as [|[arg_string [| | |]] rest']; try discriminate.
        destruct (get_value dest arg_string); [|discriminate].
        apply (IH _ _ _ _ _ s0); [cbn in Hlen; lia|].
        destruct Hrest as [[=]|]; assumption.
Qed.

Lemma classify_dashes argv tokens :
  In "--" argv -> classify argv = inl tokens -> In ("--", Dashes) tokens.
Proof.
  revert tokens. induction argv as [|s rest IH]; intros tokens Hin; [contradiction|].
  cbn [classify]. destruct (String.eqb_spec s "--") as [->|Hne].
  - intros [= <-]. now left.
  - destruct (_parse_optional s); [|discriminate].
    destruct (classify rest) as [ts|]; [|discriminate].
    intros [= <-]. right. apply IH; [|reflexivity].
    destruct Hin as [->|]; [congruence | assumption].
Qed.

(** X23: the parser takes no positional argument.  A command line that
    holds the string [--], or whose first string does not begin with a
    dash, is never accepted. *)
Theorem no_positional_argument argv :
  In "--" argv \/ (exists s rest, argv = s :: rest /\ String.prefix "-" s = false) ->
  forall args, parse_args argv <> Namespace args.
Proof.
  intros H args. unfold parse_args, Argparse.parse_args.
  destruct (classify argv) as [tokens|] eqn:Hc; [|discriminate].
  destruct H as [Hin | (s & rest & -> & Hs)].
  - apply (consume_dashes (length tokens) _ _ _ _ _ "--"); [lia|].
    now apply classify_dashes with (argv := argv).
  - cbn [classify] in Hc.
    destruct (String.eqb_spec s "--") as [->|_]; [discriminate Hs|].
    assert (_parse_optional s = inl A) as Hp.
    { destruct s as [|c r]; [reflexivity|]. cbn in Hs. cbn.
      destruct (ascii_dec "-" c) as [<-|Hne]; [destruct r; discriminate Hs|].
      destruct (Ascii.eqb_spec c "-") as [->|_]; [congruence | reflexivity]. }
    rewrite Hp in Hc. destruct (classify rest) as [ts|]; [|discriminate].
    injection Hc as <-. cbn [consume].
    apply (consume_extras (length ts)); [lia | discriminate].
Qed.

Lemma no_positional_argument_witness :
  parse_args ["--spec"; "001"; "--"; "--merge"] <> Namespace Args.defaults
  /\ parse_args ["001"; "--merge"] <> Namespace Args.defaults.
Proof.
  split.
  - refine (no_positional_argument ["--spec"; "001"; "--"; "--merge"] (or_introl _) _).
    cbn. tauto.
  - refine (no_positional_argument ["001"; "--merge"] (or_intror _) _).
    exists "001", ["--merge"]. split; reflexivity.
Defined.

End ParseMore.
